(** * NodeComposer backend: generation queue, worker and training controller

    A shallow embedding of the scheduling layer of the backend
    ([musicgen_service.py], [batch_generator.py], [training_service.py],
    the training endpoint of [main.py] and the tables of [models.py]),
    followed by the properties of that layer.

    Conventions of the embedding:
    - Python floats are IEEE binary64 numbers, here Rocq's primitive floats;
      decimal literals denote the same nearest double in both.
    - Status values are the strings the code stores.
    - [uuid.uuid4()] is an oracle [uuid4 : nat -> string]; the world counts
      the draws made so far.  Where a property needs fresh identifiers the
      oracle is assumed injective.
    - The record store is SQLite through SQLAlchemy.  [db.add] followed by
      [db.commit] is an insert into a finite map keyed by the primary key,
      and the store itself is taken to be available (no commit raises).
    - The generative model, the audio reader and the audio writer are
      opaque collaborators that may raise; they are parameters whose
      result says whether the call returned. *)

From Stdlib Require Import PrimFloat ZArith.
From stdpp Require Import gmap strings list pretty.

Set Warnings "-inexact-float".

Local Open Scope string_scope.

(** ** models.py *)

Module Models.

(** [class GenerationTask(Base)].  [progress] has column default [0.0],
    [created_at] is filled by the server at insert, [file_path] and
    [completed_at] are nullable and start as NULL. *)
Record GenerationTask := mkGenerationTask {
  gt_id : string;
  gt_prompt : string;
  gt_status : string;
  gt_progress : float;
  gt_duration : float;
  gt_file_path : option string;
  gt_model_id : option string;
  gt_created_at : option Z;
  gt_completed_at : option Z
}.

(** [class ModelCheckpoint(Base)]. *)
Record ModelCheckpoint := mkModelCheckpoint {
  mc_id : string;
  mc_name : string;
  mc_description : option string;
  mc_file_path : string;
  mc_is_base : bool;
  mc_created_at : option Z
}.

Definition set_status (v : string) (t : GenerationTask) : GenerationTask :=
  mkGenerationTask (gt_id t) (gt_prompt t) v (gt_progress t) (gt_duration t)
    (gt_file_path t) (gt_model_id t) (gt_created_at t) (gt_completed_at t).

Definition set_progress (v : float) (t : GenerationTask) : GenerationTask :=
  mkGenerationTask (gt_id t) (gt_prompt t) (gt_status t) v (gt_duration t)
    (gt_file_path t) (gt_model_id t) (gt_created_at t) (gt_completed_at t).

Definition set_file_path (v : string) (t : GenerationTask) : GenerationTask :=
  mkGenerationTask (gt_id t) (gt_prompt t) (gt_status t) (gt_progress t)
    (gt_duration t) (Some v) (gt_model_id t) (gt_created_at t)
    (gt_completed_at t).

End Models.

Import Models.

(** ** musicgen_service.py *)

Module MusicGen.

(** The job descriptor put on the queue: the dict built by
    [queue_generation]. *)
Record TaskData := mkTaskData {
  td_task_id : string;
  td_prompt : string;
  td_duration : float;
  td_model_id : option string;
  td_guidance_scale : float;
  td_temperature : float;
  td_audio_conditioning : option string
}.

(** Generation parameters held by the loaded model, as installed by
    [set_generation_params]. *)
Record GenParams := mkGenParams {
  gp_duration : float;
  gp_temperature : float;
  gp_cfg_coef : float
}.

(** The service object together with the store it talks to.
    - [tasks]: the table [generation_tasks];
    - [db_log]: every row state committed to that table, oldest first
      (what a polling reader can have observed);
    - [generation_queue]: [queue.Queue()], oldest descriptor first;
    - [model]: [self.model], [None] when loading failed;
    - [generations]: files written under [generations/];
    - [uuid_draws]: number of [uuid4()] calls made so far;
    - [clock]: the store's current time. *)
Record World := mkWorld {
  tasks : gmap string GenerationTask;
  db_log : list GenerationTask;
  generation_queue : list TaskData;
  is_processing : bool;
  model : option GenParams;
  generations : list string;
  uuid_draws : nat;
  clock : Z
}.

Definition with_tasks (w : World) (m : gmap string GenerationTask)
    (l : list GenerationTask) : World :=
  mkWorld m l (generation_queue w) (is_processing w) (model w)
    (generations w) (uuid_draws w) (clock w).

Definition with_queue (w : World) (q : list TaskData) : World :=
  mkWorld (tasks w) (db_log w) q (is_processing w) (model w)
    (generations w) (uuid_draws w) (clock w).

Definition with_is_processing (w : World) (b : bool) : World :=
  mkWorld (tasks w) (db_log w) (generation_queue w) b (model w)
    (generations w) (uuid_draws w) (clock w).

Definition with_model (w : World) (m : option GenParams) : World :=
  mkWorld (tasks w) (db_log w) (generation_queue w) (is_processing w) m
    (generations w) (uuid_draws w) (clock w).

Definition with_generations (w : World) (g : list string) : World :=
  mkWorld (tasks w) (db_log w) (generation_queue w) (is_processing w)
    (model w) g (uuid_draws w) (clock w).

Definition with_uuid_draws (w : World) (n : nat) : World :=
  mkWorld (tasks w) (db_log w) (generation_queue w) (is_processing w)
    (model w) (generations w) n (clock w).

(** [db.commit()] with the row [t] dirty or pending in the session. *)
Definition db_commit (t : GenerationTask) (w : World) : World :=
  with_tasks w (<[gt_id t := t]> (tasks w)) (db_log w ++ [t]).

(** [Queue.put] and [Queue.get] on a non-empty queue; [Queue.empty]. *)
Definition queue_put (d : TaskData) (q : list TaskData) : list TaskData :=
  q ++ [d].

Definition queue_get (q : list TaskData) : option (TaskData * list TaskData) :=
  match q with
  | [] => None
  | d :: rest => Some (d, rest)
  end.

Definition queue_empty (q : list TaskData) : bool :=
  match q with
  | [] => true
  | _ :: _ => false
  end.

(** *** The body of [_process_generation] as a computation

    The state threaded through the [try] block is the world and the ORM
    object [task]; a step either returns or raises. *)
Inductive outcome (A : Type) : Type :=
| Returned (a : A)
| Raised.
Arguments Returned {A} a.
Arguments Raised {A}.

Record Frame := mkFrame {
  fr_world : World;
  fr_task : GenerationTask
}.

Definition Proc (A : Type) : Type := Frame -> outcome A * Frame.

Definition ret {A} (a : A) : Proc A := fun f => (Returned a, f).

Definition raise {A} : Proc A := fun f => (Raised, f).

Definition bind {A B} (m : Proc A) (k : A -> Proc B) : Proc B :=
  fun f =>
    match m f with
    | (Returned a, f') => k a f'
    | (Raised, f') => (Raised, f')
    end.

(** [try: body except Exception: handler]. *)
Definition try_except (body handler : Proc unit) : Proc unit :=
  fun f =>
    match body f with
    | (Returned u, f') => (Returned u, f')
    | (Raised, f') => handler f'
    end.

Notation "x <- m ;; k" := (bind m (fun x => k))
  (at level 100, m at next level, right associativity).
Notation "m ;; k" := (bind m (fun _ => k))
  (at level 100, right associativity).

Definition assign_task (g : GenerationTask -> GenerationTask) : Proc unit :=
  fun f => (Returned tt, mkFrame (fr_world f) (g (fr_task f))).

Definition commit : Proc unit :=
  fun f => (Returned tt, mkFrame (db_commit (fr_task f) (fr_world f)) (fr_task f)).

Definition get_task : Proc GenerationTask :=
  fun f => (Returned (fr_task f), f).

Definition get_world : Proc World :=
  fun f => (Returned (fr_world f), f).

Definition put_world (w : World) : Proc unit :=
  fun f => (Returned tt, mkFrame w (fr_task f)).

(** Lift a call that returns [None] when it raises. *)
Definition call {A} (r : option A) : Proc A :=
  match r with
  | Some a => ret a
  | None => raise
  end.

(** The collaborators of the service: the identifier source, the
    generative model ([generate], [generate_with_chroma]) and the audio
    reader and writer of audiocraft.  [None] or [false] stands for a call
    that raises. *)
Record Collaborators := mkCollaborators {
  Wav : Type;
  Melody : Type;
  uuid4 : nat -> string;
  model_generate : GenParams -> string -> option Wav;
  audio_read : string -> option Melody;
  generate_with_chroma : GenParams -> string -> Melody -> option Wav;
  audio_write : string -> Wav -> bool
}.

Section Service.

Variable E : Collaborators.

(** [queue_generation] (lines 45-79). *)
Definition queue_generation (prompt : string) (duration : float)
    (model_id : option string) (guidance_scale temperature : float)
    (audio_conditioning : option string) (w : World)
    : GenerationTask * World :=
  let task :=
    {| gt_id := uuid4 E (uuid_draws w);
       gt_prompt := prompt;
       gt_status := "queued";
       gt_progress := 0.0%float;
       gt_duration := duration;
       gt_file_path := None;
       gt_model_id := model_id;
       gt_created_at := Some (clock w);
       gt_completed_at := None |} in
  let w1 := with_uuid_draws w (S (uuid_draws w)) in
  let w2 := db_commit task w1 in
  let w3 :=
    with_queue w2
      (queue_put
         {| td_task_id := gt_id task;
            td_prompt := prompt;
            td_duration := duration;
            td_model_id := model_id;
            td_guidance_scale := guidance_scale;
            td_temperature := temperature;
            td_audio_conditioning := audio_conditioning |}
         (generation_queue w2)) in
  (task, w3).

(** [self.model.set_generation_params(...)]: an [AttributeError] when
    [self.model] is [None]. *)
Definition set_generation_params (p : GenParams) : Proc unit :=
  w <- get_world ;;
  match model w with
  | None => raise
  | Some _ => put_world (with_model w (Some p))
  end.

(** The two generation paths (lines 128-144). *)
Definition generate_music (task_data : TaskData) : Proc (Wav E) :=
  w <- get_world ;;
  match model w with
  | None => raise
  | Some p =>
      match td_audio_conditioning task_data with
      | Some path =>
          melody <- call (audio_read E path) ;;
          call (generate_with_chroma E p (td_prompt task_data) melody)
      | None => call (model_generate E p (td_prompt task_data))
      end
  end.

(** [audio_write(...)] into [generations/] (lines 150-159). *)
Definition write_audio (stem : string) (wav : Wav E) : Proc unit :=
  if audio_write E stem wav then
    w <- get_world ;;
    put_world (with_generations w (generations w ++ [stem ++ ".wav"]))
  else raise.

(** The [try] block (lines 107-165).  The branch on
    [task_data.get("model_id")] (lines 112-115) is [pass] in the source and
    has no counterpart here. *)
Definition process_body (task_data : TaskData) : Proc unit :=
  assign_task (set_status "processing") ;;
  assign_task (set_progress 0.1%float) ;;
  commit ;;
  set_generation_params
    (mkGenParams (td_duration task_data) (td_temperature task_data)
       (td_guidance_scale task_data)) ;;
  assign_task (set_progress 0.3%float) ;;
  commit ;;
  wav <- generate_music task_data ;;
  assign_task (set_progress 0.8%float) ;;
  commit ;;
  task <- get_task ;;
  let filename := "generation_" ++ gt_id task in
  write_audio ("generations/" ++ filename) wav ;;
  assign_task (set_file_path ("generations/" ++ filename ++ ".wav")) ;;
  assign_task (set_status "completed") ;;
  assign_task (set_progress 1.0%float) ;;
  commit.

(** The [except] block (lines 167-171). *)
Definition process_handler : Proc unit :=
  assign_task (set_status "failed") ;;
  assign_task (set_progress 0.0%float) ;;
  commit.

(** [_process_generation] (lines 98-171). *)
Definition _process_generation (task_data : TaskData) (w : World) : World :=
  match tasks w !! td_task_id task_data with
  | None => w
  | Some task =>
      fr_world
        (snd (try_except (process_body task_data) process_handler
                (mkFrame w task)))
  end.

(** One turn of the [while True] loop of [worker] (lines 84-93).  No
    exception escapes [_process_generation] here, so the [except] of the
    loop is not entered. *)
Definition worker_iteration (w : World) : World :=
  if queue_empty (generation_queue w) then w
  else
    let w1 := with_is_processing w true in
    match queue_get (generation_queue w1) with
    | None => w1
    | Some (task_data, rest) =>
        let w2 := _process_generation task_data (with_queue w1 rest) in
        with_is_processing w2 false
    end.

(** The worker after [n] turns of its loop. *)
Fixpoint worker (n : nat) (w : World) : World :=
  match n with
  | O => w
  | S k => worker k (worker_iteration w)
  end.

(** *** Histories of the service

    A history is a sequence of calls made on the service object: an
    enqueue by a client, or one turn of the worker's loop.  Running it
    records the identifiers returned to the clients and the identifiers
    of the descriptors the worker took off the queue, each in order. *)
Inductive Call : Type :=
| Enqueue (prompt : string) (duration : float) (model_id : option string)
    (guidance_scale temperature : float)
    (audio_conditioning : option string)
| WorkerTurn.

Record Trace := mkTrace {
  tr_world : World;
  tr_enqueued : list string;
  tr_popped : list string
}.

Definition step (tr : Trace) (c : Call) : Trace :=
  match c with
  | Enqueue prompt duration model_id guidance_scale temperature
      audio_conditioning =>
      let r := queue_generation prompt duration model_id guidance_scale
                 temperature audio_conditioning (tr_world tr) in
      mkTrace (snd r) (tr_enqueued tr ++ [gt_id (fst r)]) (tr_popped tr)
  | WorkerTurn =>
      mkTrace (worker_iteration (tr_world tr)) (tr_enqueued tr)
        (tr_popped tr ++
         match queue_get (generation_queue (tr_world tr)) with
         | Some (task_data, _) => [td_task_id task_data]
         | None => []
         end)
  end.

Definition run (calls : list Call) (w : World) : Trace :=
  fold_left step calls (mkTrace w [] []).

End Service.

(** The service right after [__init__] on an empty table: [m] is the
    result of [load_model], [now] the time of the store. *)
Definition init (m : option GenParams) (now : Z) : World :=
  mkWorld ∅ [] [] false m [] 0 now.

(** [self.model_name]. *)
Definition model_name : string := "facebook/musicgen-medium".

(** [load_model] (lines 27-39).  [path_exists] is [os.path.exists] and
    [get_pretrained] tells whether [MusicGen.get_pretrained] returns for a
    name or path; any exception leaves [self.model] at [None].  A loaded
    model holds the parameters of [set_generation_params(duration=30)]. *)
Definition load_model (path_exists get_pretrained : string -> bool)
    (model_path : option string) (w : World) : World :=
  let source :=
    match model_path with
    | Some path =>
        if negb (String.eqb path "") && path_exists path then path
        else model_name
    | None => model_name
    end in
  if get_pretrained source then
    with_model w (Some (mkGenParams 30.0 1.0 3.0))
  else with_model w None.

End MusicGen.

Import MusicGen.

(** ** config_manager.py: the configured duration bounds
    ([GenerationConfig.min_duration], [GenerationConfig.max_duration]). *)

Module Config.

Definition min_duration : float := 10.0%float.
Definition max_duration : float := 120.0%float.

(** The duration lies in the configured interval. *)
Definition duration_in_bounds (duration : float) : bool :=
  (min_duration <=? duration)%float && (duration <=? max_duration)%float.

End Config.

(** ** batch_generator.py *)

Module Batch.

Section BatchGenerator.

Variable E : Collaborators.

(** The loop of the [max_concurrent == 1] branch (lines 46-54). *)
Fixpoint sequential_loop (prompts : list string) (duration : float)
    (model_id : option string) (guidance_scale temperature : float)
    (task_ids : list string) (w : World) : list string * World :=
  match prompts with
  | [] => (task_ids, w)
  | prompt :: rest =>
      let r := queue_generation E prompt duration model_id guidance_scale
                 temperature None w in
      sequential_loop rest duration model_id guidance_scale temperature
        (task_ids ++ [gt_id (fst r)]) (snd r)
  end.

(** The loop of the [else] branch (lines 58-66). *)
Fixpoint concurrent_loop (prompts : list string) (duration : float)
    (model_id : option string) (guidance_scale temperature : float)
    (task_ids : list string) (w : World) : list string * World :=
  match prompts with
  | [] => (task_ids, w)
  | prompt :: rest =>
      let r := queue_generation E prompt duration model_id guidance_scale
                 temperature None w in
      concurrent_loop rest duration model_id guidance_scale temperature
        (task_ids ++ [gt_id (fst r)]) (snd r)
  end.

(** [generate_batch] (lines 19-68). *)
Definition generate_batch (prompts : list string) (duration : float)
    (model_id : option string) (guidance_scale temperature : float)
    (max_concurrent : Z) (w : World) : list string * World :=
  if (max_concurrent =? 1)%Z then
    sequential_loop prompts duration model_id guidance_scale temperature
      [] w
  else
    concurrent_loop prompts duration model_id guidance_scale temperature
      [] w.

End BatchGenerator.

Section RandomBatches.

Variable E : Collaborators.

(** The generator of the [random] module: [random k] is the result of
    [random.random()] at draw number [k]; [die k] is the integer behind the
    index drawn at draw number [k], which [random.choice] keeps below the
    length of its argument. *)
Variable random : nat -> float.
Variable die : nat -> nat.

(** [random.uniform(a, b)], which is [a + (b - a) * random()]. *)
Definition uniform (a b : float) (k : nat) : float :=
  (a + (b - a) * random k)%float.

(** [random.choice(seq)] on a non-empty list. *)
Definition choice {A : Type} (default : A) (seq : list A) (k : nat) : A :=
  nth (die k mod length seq) seq default.

(** The loop of [generate_variations] (lines 125-133): [todo] turns remain,
    [k] calls of the generator were made so far.  [queue_generation] is
    called without [guidance_scale], which takes its default 3.0. *)
Fixpoint variations_loop (todo k : nat) (base_prompt : string)
    (duration : float) (model_id : option string) (min_temp max_temp : float)
    (task_ids : list string) (w : World) : list string * World :=
  match todo with
  | O => (task_ids, w)
  | S todo' =>
      let temperature := uniform min_temp max_temp k in
      let r := queue_generation E base_prompt duration model_id 3.0
                 temperature None w in
      variations_loop todo' (S k) base_prompt duration model_id min_temp
        max_temp (task_ids ++ [gt_id (fst r)]) (snd r)
  end.

(** [generate_variations] (lines 99-135). *)
Definition generate_variations (base_prompt : string) (num_variations : Z)
    (duration : float) (model_id : option string)
    (temperature_range : float * float) (k : nat) (w : World)
    : list string * World :=
  variations_loop (Z.to_nat num_variations) k base_prompt duration model_id
    (fst temperature_range) (snd temperature_range) [] w.

(** The two tables of [_generate_theme_prompts] (lines 168-192). *)
Definition variations (theme : string) : list string :=
  ["A " ++ theme ++ " track with";
   "An energetic " ++ theme ++ " song featuring";
   "A mellow " ++ theme ++ " composition with";
   "A dark " ++ theme ++ " piece with";
   "An uplifting " ++ theme ++ " melody with";
   "A cinematic " ++ theme ++ " soundtrack with";
   "A rhythmic " ++ theme ++ " beat with";
   "An atmospheric " ++ theme ++ " soundscape with";
   "A powerful " ++ theme ++ " anthem with";
   "A gentle " ++ theme ++ " ballad with"].

Definition elements : list string :=
  ["heavy bass"; "synthesizers"; "drums"; "piano"; "strings"; "guitar";
   "electronic elements"; "ambient textures"; "rhythmic patterns";
   "melodic hooks"].

(** The loop of [_generate_theme_prompts] (lines 194-199): two draws per
    track. *)
Fixpoint theme_prompts_loop (todo k : nat) (theme : string)
    (prompts : list string) : list string :=
  match todo with
  | O => prompts
  | S todo' =>
      let variation := choice "" (variations theme) k in
      let element := choice "" elements (S k) in
      theme_prompts_loop todo' (S (S k)) theme
        (prompts ++ [variation ++ " " ++ element ++ "."])
  end.

(** [_generate_theme_prompts] (lines 165-201). *)
Definition _generate_theme_prompts (theme : string) (num_tracks : Z)
    (k : nat) : list string :=
  theme_prompts_loop (Z.to_nat num_tracks) k theme [].

(** [generate_playlist] (lines 137-163): [generate_batch] with its default
    [guidance_scale], [temperature] and [max_concurrent]. *)
Definition generate_playlist (theme : string) (num_tracks : Z)
    (duration : float) (model_id : option string) (k : nat) (w : World)
    : list string * World :=
  generate_batch E (_generate_theme_prompts theme num_tracks k) duration
    model_id 3.0 1.0 1 w.

End RandomBatches.

End Batch.

(** ** training_service.py and the training endpoint of main.py *)

Module Training.

(** The dict [self.training_status]. *)
Record TrainingStatus := mkTrainingStatus {
  ts_status : string;
  ts_progress : float;
  ts_epoch : Z;
  ts_total_epochs : Z;
  ts_loss : option float;
  ts_message : string
}.

(** The service object and what it touches outside itself.
    - [dataset_dir]: names of the entries of [dataset/];
    - [metadata]: contents of [dataset/metadata.json], [None] when the
      file does not exist, else the list of (path, caption) entries;
    - [pretrained_error]: [None] when [MusicGen.get_pretrained] returns,
      [Some msg] when it raises an exception whose [str] is [msg];
    - [checkpoint_dirs]: directories created under [models/];
    - [model_checkpoints]: the table [model_checkpoints];
    - [uuid_draws], [clock]: as for the generation service. *)
Record World := mkWorld {
  is_training : bool;
  training_status : TrainingStatus;
  should_stop : bool;
  dataset_dir : list string;
  metadata : option (list (string * string));
  pretrained_error : option string;
  checkpoint_dirs : list string;
  model_checkpoints : gmap string ModelCheckpoint;
  uuid_draws : nat;
  clock : Z
}.

Definition with_is_training (b : bool) (w : World) : World :=
  mkWorld b (training_status w) (should_stop w) (dataset_dir w) (metadata w)
    (pretrained_error w) (checkpoint_dirs w) (model_checkpoints w)
    (uuid_draws w) (clock w).

Definition with_status (s : TrainingStatus) (w : World) : World :=
  mkWorld (is_training w) s (should_stop w) (dataset_dir w) (metadata w)
    (pretrained_error w) (checkpoint_dirs w) (model_checkpoints w)
    (uuid_draws w) (clock w).

Definition with_should_stop (b : bool) (w : World) : World :=
  mkWorld (is_training w) (training_status w) b (dataset_dir w) (metadata w)
    (pretrained_error w) (checkpoint_dirs w) (model_checkpoints w)
    (uuid_draws w) (clock w).

Definition with_metadata (m : option (list (string * string))) (w : World)
    : World :=
  mkWorld (is_training w) (training_status w) (should_stop w) (dataset_dir w)
    m (pretrained_error w) (checkpoint_dirs w) (model_checkpoints w)
    (uuid_draws w) (clock w).

Definition with_checkpoint (dir : string) (c : ModelCheckpoint) (w : World)
    : World :=
  mkWorld (is_training w) (training_status w) (should_stop w) (dataset_dir w)
    (metadata w) (pretrained_error w) (checkpoint_dirs w ++ [dir])
    (<[mc_id c := c]> (model_checkpoints w)) (S (uuid_draws w)) (clock w).

(** Assignments to single keys of [self.training_status]. *)
Definition set_status (v : string) (w : World) : World :=
  let s := training_status w in
  with_status
    (mkTrainingStatus v (ts_progress s) (ts_epoch s) (ts_total_epochs s)
       (ts_loss s) (ts_message s)) w.

Definition set_progress (v : float) (w : World) : World :=
  let s := training_status w in
  with_status
    (mkTrainingStatus (ts_status s) v (ts_epoch s) (ts_total_epochs s)
       (ts_loss s) (ts_message s)) w.

Definition set_epoch (v : Z) (w : World) : World :=
  let s := training_status w in
  with_status
    (mkTrainingStatus (ts_status s) (ts_progress s) v (ts_total_epochs s)
       (ts_loss s) (ts_message s)) w.

Definition set_total_epochs (v : Z) (w : World) : World :=
  let s := training_status w in
  with_status
    (mkTrainingStatus (ts_status s) (ts_progress s) (ts_epoch s) v
       (ts_loss s) (ts_message s)) w.

Definition set_message (v : string) (w : World) : World :=
  let s := training_status w in
  with_status
    (mkTrainingStatus (ts_status s) (ts_progress s) (ts_epoch s)
       (ts_total_epochs s) (ts_loss s) v) w.

(** [__init__] (lines 16-28), given the surroundings of the process. *)
Definition init (files : list string) (meta : option (list (string * string)))
    (pretrained : option string) (now : Z) : World :=
  mkWorld false (mkTrainingStatus "idle" 0.0%float 0 0 None "") false files
    meta pretrained [] ∅ 0 now.

(** Conversion of a Python [int] to [float] for true division; exact for
    the counts below 2^53 that occur here. *)
Fixpoint float_of_nat (n : nat) : float :=
  match n with
  | O => 0%float
  | S k => (float_of_nat k + 1)%float
  end.

Definition float_of_Z (z : Z) : float :=
  match z with
  | Z0 => 0%float
  | Zpos p => float_of_nat (Pos.to_nat p)
  | Zneg p => (- float_of_nat (Pos.to_nat p))%float
  end.

(** [name.endswith(suffix)], the test behind [glob("*" + suffix)]. *)
Definition ends_with (suffix name : string) : bool :=
  let n := String.length name in
  let k := String.length suffix in
  (k <=? n)%nat && String.eqb (String.substring (n - k) k name) suffix.

(** [Path(dir).glob("*" + suffix)] as names. *)
Definition glob (suffix : string) (dir : list string) : list string :=
  List.filter (ends_with suffix) dir.

(** [s.rfind(c)] with indices counted from [i]: the index of the last
    occurrence of the character [c]. *)
Fixpoint rfind (c : Ascii.ascii) (s : string) (i : nat) : option nat :=
  match s with
  | EmptyString => None
  | String a rest =>
      match rfind c rest (S i) with
      | Some j => Some j
      | None => if Ascii.eqb a c then Some i else None
      end
  end.

(** [PurePath.name]: the final component of a path. *)
Definition path_name (path : string) : string :=
  match rfind (Ascii.ascii_of_nat 47) path 0 with
  | Some i => String.substring (S i) (String.length path - S i) path
  | None => path
  end.

(** [PurePath.stem]: the final component without its suffix. *)
Definition stem (path : string) : string :=
  let n := path_name path in
  match rfind (Ascii.ascii_of_nat 46) n 0 with
  | Some i =>
      if (0 <? i)%nat && (i <? String.length n - 1)%nat
      then String.substring 0 i n
      else n
  | None => n
  end.

(** [_slice_audio] (lines 76-80) and [_generate_caption] (lines 82-86):
    both are placeholders in the source. *)
Definition _slice_audio (audio_path : string) (chunk_duration : float)
    : list string :=
  [audio_path].

Definition _generate_caption (audio_path : string) : string :=
  "Music track from " ++ stem audio_path.

(** [_save_dataset_metadata] (lines 88-93). *)
Definition _save_dataset_metadata (processed_files : list (string * string))
    (w : World) : World :=
  with_metadata (Some processed_files) w.

(** [stop_training] (lines 175-178). *)
Definition stop_training (w : World) : World :=
  set_message "Stopping training..." (with_should_stop true w).

(** [training_in_progress] (lines 184-186). *)
Definition training_in_progress (w : World) : bool := is_training w.

(** What other threads do to the service while a loop is busy with one
    unit of work: [stops k] tells whether a stop request is served during
    unit [k] (unit [0] is the set-up before the loop). *)
Definition interference (stops : nat -> bool) (k : nat) (w : World) : World :=
  if stops k then stop_training w else w.

(** [process_dataset], lines 32-34: the status on entry. *)
Definition process_dataset_enter (w : World) : World :=
  set_message "Processing dataset..."
    (set_progress 0.0%float (set_status "processing_dataset" w)).

(** The audio files found (line 37). *)
Definition audio_files (w : World) : list string :=
  glob ".wav" (dataset_dir w) ++ glob ".mp3" (dataset_dir w).

(** The per-file loop (lines 46-62): [files] are the files still to be
    visited, [i] the index of the first of them, [total] is
    [len(audio_files)]. *)
Fixpoint process_files (stops : nat -> bool) (total : nat)
    (files : list string) (i : nat)
    (processed_files : list (string * string)) (w : World)
    : list (string * string) * World :=
  match files with
  | [] => (processed_files, w)
  | audio_file :: rest =>
      if should_stop w then (processed_files, w)
      else
        let chunks := _slice_audio ("dataset/" ++ audio_file) 30.0%float in
        let processed_files' :=
          (processed_files ++
           List.map
             (fun chunk_path => (chunk_path, _generate_caption chunk_path))
             chunks)%list in
        let w1 :=
          set_progress
            (float_of_nat (i + 1) / float_of_nat total * 0.5)%float w in
        let w2 :=
          set_message
            ("Processed " ++ pretty (i + 1)%nat ++ "/" ++ pretty total ++
             " files") w1 in
        process_files stops total rest (S i) processed_files'
          (interference stops (S i) w2)
  end.

(** [process_dataset] (lines 30-74).  Nothing in the [try] block raises in
    this model, so the [except] clause is not entered. *)
Definition process_dataset (stops : nat -> bool) (w : World) : World :=
  let w1 := process_dataset_enter w in
  match audio_files w1 with
  | [] =>
      set_message "No audio files found in dataset directory"
        (set_status "failed" w1)
  | _ :: _ =>
      let r := process_files stops (length (audio_files w1)) (audio_files w1)
                 0 [] w1 in
      let w2 := _save_dataset_metadata (fst r) (snd r) in
      set_message
        ("Dataset processed: " ++ pretty (length (fst r)) ++ " chunks")
        (set_progress 1.0%float (set_status "idle" w2))
  end.

Section Controller.

(** [uuid.uuid4()] and [datetime.strftime('%Y-%m-%d %H:%M')]. *)
Variable uuid4 : nat -> string.
Variable strftime : Z -> string.

(** The epoch loop (lines 126-143): [todo] epochs remain, [epoch] is the
    loop variable.  The stop flag is read once per turn, before the
    epoch; [time.sleep(1)] is where other threads run. *)
Fixpoint epoch_loop (stops : nat -> bool) (epochs : Z) (todo : nat)
    (epoch : nat) (w : World) : World :=
  match todo with
  | O => w
  | S todo' =>
      if should_stop w then w
      else
        let w1 := set_epoch (Z.of_nat epoch + 1) w in
        let w2 :=
          set_progress
            (float_of_Z (Z.of_nat epoch + 1) / float_of_Z epochs)%float w1 in
        let w3 :=
          set_message
            ("Training epoch " ++ pretty (Z.of_nat epoch + 1)%Z ++ "/" ++
             pretty epochs) w2 in
        epoch_loop stops epochs todo' (S epoch)
          (interference stops (S epoch) w3)
  end.

(** Lines 145-168: the checkpoint is saved and the run ends. *)
Definition save_final_checkpoint (epochs : Z) (w : World) : World :=
  let checkpoint_id := uuid4 (uuid_draws w) in
  let checkpoint_path := "models/checkpoint_" ++ checkpoint_id in
  let checkpoint :=
    {| mc_id := checkpoint_id;
       mc_name := "Fine-tuned Model " ++ strftime (clock w);
       mc_description := Some ("Trained for " ++ pretty epochs ++ " epochs");
       mc_file_path := checkpoint_path;
       mc_is_base := false;
       mc_created_at := Some (clock w) |} in
  let w1 := with_checkpoint checkpoint_path checkpoint w in
  with_is_training false
    (set_message "Training completed successfully"
       (set_progress 1.0%float (set_status "completed" w1))).

(** [start_training] (lines 95-173). *)
Definition start_training (epochs : Z) (learning_rate : float)
    (batch_size : Z) (stops : nat -> bool) (w : World) : World :=
  if is_training w then w
  else
    let w1 :=
      set_message "Starting training..."
        (set_total_epochs epochs
           (set_epoch 0
              (set_progress 0.0%float
                 (set_status "training"
                    (with_should_stop false (with_is_training true w)))))) in
    match pretrained_error w1 with
    | Some e =>
        with_is_training false
          (set_message ("Training error: " ++ e) (set_status "failed" w1))
    | None =>
        let w2 := interference stops 0 w1 in
        match metadata w2 with
        | None =>
            with_is_training false
              (set_message
                 "Dataset not processed. Please process dataset first."
                 (set_status "failed" w2))
        | Some dataset =>
            save_final_checkpoint epochs
              (epoch_loop stops epochs (Z.to_nat epochs) 0 w2)
        end
    end.

(** The answer of an endpoint: the JSON body or an [HTTPException]
    with its status code. *)
Inductive Response : Type :=
| Ok (status message : string)
| HTTPError (status_code : Z).

(** [POST /api/train/start] (main.py lines 214-229) followed by the
    background task it schedules.  The [HTTPException(400)] is raised
    inside the handler's own [try] and re-raised by its
    [except Exception] with status 500. *)
Definition start_training_endpoint (epochs : Z) (learning_rate : float)
    (batch_size : Z) (stops : nat -> bool) (w : World) : Response * World :=
  if training_in_progress w then (HTTPError 500, w)
  else
    (Ok "started" "Training started",
     start_training epochs learning_rate batch_size stops w).

End Controller.


End Training.

(** ** main.py: the endpoints on tasks and batches *)

Module Api.

(** What an endpoint answers: a JSON body, or an [HTTPException] (an
    exception nothing catches gives status 500). *)
Inductive Result (A : Type) : Type :=
| Json (body : A)
| HTTPException (status_code : Z).
Arguments Json {A} body.
Arguments HTTPException {A} status_code.

(** The body of [GET /api/tasks/{task_id}]. *)
Record TaskView := mkTaskView {
  tv_id : string;
  tv_prompt : string;
  tv_status : string;
  tv_progress : float;
  tv_created_at : string;
  tv_file_path : option string;
  tv_duration : float
}.

(** [get_task] (lines 120-135); [isoformat] is [datetime.isoformat].  With
    [created_at] NULL the call [task.created_at.isoformat()] raises. *)
Definition get_task (isoformat : Z -> string) (task_id : string) (w : World)
    : Result TaskView :=
  match tasks w !! task_id with
  | None => HTTPException 404
  | Some task =>
      match gt_created_at task with
      | None => HTTPException 500
      | Some t =>
          Json (mkTaskView (gt_id task) (gt_prompt task) (gt_status task)
                  (gt_progress task) (isoformat t) (gt_file_path task)
                  (gt_duration task))
      end
  end.

(** [os.path.exists] and [os.remove] on the files under [generations/]. *)
Definition path_exists (path : string) (w : World) : bool :=
  existsb (String.eqb path) (generations w).

Definition remove (path : string) (w : World) : World :=
  with_generations w
    (List.filter (fun f => negb (String.eqb path f)) (generations w)).

(** [delete_task] (lines 242-254). *)
Definition delete_task (task_id : string) (w : World) : Result string * World :=
  match tasks w !! task_id with
  | None => (HTTPException 404, w)
  | Some task =>
      let w1 :=
        match gt_file_path task with
        | Some path =>
            if negb (String.eqb path "") && path_exists path w
            then remove path w
            else w
        | None => w
        end in
      (Json "deleted",
       with_tasks w1 (delete (gt_id task) (tasks w1)) (db_log w1))
  end.

(** The JSON object of a batch request, a key being [None] when absent. *)
Record BatchRequest := mkBatchRequest {
  br_prompts : option (list string);
  br_prompt : option string;
  br_num_variations : option Z;
  br_duration : option float;
  br_model_id : option string
}.

(** The body of the two batch endpoints. *)
Record BatchReply := mkBatchReply {
  rp_status : string;
  rp_task_ids : list string;
  rp_count : nat
}.

Section BatchEndpoints.

Variable E : Collaborators.
Variable random : nat -> float.

(** [batch_generate] (lines 305-323).  The check on [prompts] stands
    before the [try]. *)
Definition batch_generate (request : BatchRequest) (w : World)
    : Result BatchReply * World :=
  let prompts := default [] (br_prompts request) in
  let duration := default 30.0%float (br_duration request) in
  let model_id := br_model_id request in
  match prompts with
  | [] => (HTTPException 400, w)
  | _ :: _ =>
      let r := Batch.generate_batch E prompts duration model_id 3.0 1.0 1 w in
      (Json (mkBatchReply "queued" (fst r) (length (fst r))), snd r)
  end.

(** [generate_variations] (lines 326-346); [k] draws of the generator were
    made so far.  [not prompt] holds for an absent and for an empty
    prompt. *)
Definition generate_variations (request : BatchRequest) (k : nat) (w : World)
    : Result BatchReply * World :=
  let num_variations := default 5%Z (br_num_variations request) in
  let duration := default 30.0%float (br_duration request) in
  let model_id := br_model_id request in
  match br_prompt request with
  | None => (HTTPException 400, w)
  | Some prompt =>
      if String.eqb prompt "" then (HTTPException 400, w)
      else
        let r := Batch.generate_variations E random prompt num_variations
                   duration model_id (0.8, 1.2)%float k w in
        (Json (mkBatchReply "queued" (fst r) (length (fst r))), snd r)
  end.

End BatchEndpoints.

End Api.

(** * Vocabulary of the properties *)

Section Vocabulary.

Variable E : Collaborators.

(** The terminal row left by a run of the [try]/[except] of
    [_process_generation], and the rows it committed on the way. *)
Inductive run_result (t : GenerationTask) (commits : list GenerationTask)
    (t' : GenerationTask) : outcome unit -> Prop :=
| run_completed :
    gt_status <$> commits
      = ["processing"; "processing"; "processing"; "completed"] ->
    gt_progress <$> commits = [0.1; 0.3; 0.8; 1.0]%float ->
    gt_status t' = "completed" ->
    gt_progress t' = 1.0%float ->
    gt_file_path t'
      = Some ("generations/" ++ "generation_" ++ gt_id t ++ ".wav") ->
    run_result t commits t' (Returned tt)
| run_failed :
    gt_status t' = "failed" ->
    gt_progress t' = 0.0%float ->
    gt_file_path t' = gt_file_path t ->
    run_result t commits t' Raised.

(** The generation of [d] raises somewhere in the [try] block: the model
    is missing, the conditioning audio cannot be read, the model call
    fails, or the output cannot be written. *)
Definition raises (d : TaskData) (w : World) (t : GenerationTask) : Prop :=
  fst (process_body E d (mkFrame w t)) = Raised.

(** Each element is strictly below the next one. *)
Fixpoint strictly_increasing (l : list float) : bool :=
  match l with
  | [] => true
  | x :: rest =>
      match rest with
      | [] => true
      | y :: _ => (x <? y)%float && strictly_increasing rest
      end
  end.

(** The state of a history after [draws] enqueues of which the worker has
    taken the first [n]: the clients hold the identifiers drawn so far, the
    worker took the first [n] of them in order, the queue holds the others
    in order, and a row is still queued exactly when its descriptor is
    still on the queue. *)
Record fifo_inv (tr : Trace) (n : nat) : Prop := mk_fifo_inv {
  inv_le : n <= uuid_draws (tr_world tr);
  inv_enqueued :
    tr_enqueued tr = uuid4 E <$> seq 0 (uuid_draws (tr_world tr));
  inv_popped : tr_popped tr = uuid4 E <$> seq 0 n;
  inv_queue :
    td_task_id <$> generation_queue (tr_world tr)
      = uuid4 E <$> seq n (uuid_draws (tr_world tr) - n);
  inv_done : forall i, i < n ->
    exists r, tasks (tr_world tr) !! uuid4 E i = Some r /\
      gt_id r = uuid4 E i /\ gt_status r <> "queued";
  inv_waiting : forall i, n <= i < uuid_draws (tr_world tr) ->
    exists r, tasks (tr_world tr) !! uuid4 E i = Some r /\
      gt_id r = uuid4 E i /\ gt_status r = "queued"
}.

(** The descriptors and identifiers produced by enqueuing [prompts] one
    after the other, the first identifier being draw number [k]. *)
Fixpoint batch_data (prompts : list string) (duration : float)
    (model_id : option string) (guidance_scale temperature : float)
    (k : nat) : list TaskData :=
  match prompts with
  | [] => []
  | prompt :: rest =>
      mkTaskData (uuid4 E k) prompt duration model_id guidance_scale
        temperature None
      :: batch_data rest duration model_id guidance_scale temperature (S k)
  end.

End Vocabulary.

(** C1 as it is stated: a call with an empty prompt, or with a duration
    outside the configured bounds, persists nothing and queues nothing. *)
Definition rejects_invalid_requests (E : Collaborators) : Prop :=
  forall (prompt : string) (duration : float) (model_id : option string)
         (guidance_scale temperature : float)
         (audio_conditioning : option string) (w : World),
    prompt = "" \/ Config.duration_in_bounds duration = false ->
    let r := queue_generation E prompt duration model_id guidance_scale
               temperature audio_conditioning w in
    tasks (snd r) = tasks w /\
    db_log (snd r) = db_log w /\
    generation_queue (snd r) = generation_queue w.

(** * Concrete instances *)

(** *** A concrete service

    Collaborators for running the model on examples: identifiers
    ["task-0"], ["task-1"], ...; a model that fails on the prompt ["noise"]
    and succeeds otherwise; an audio reader and writer that succeed. *)
Definition demo_uuid4 (n : nat) : string := "task-" ++ pretty n.

Definition demo : Collaborators :=
  mkCollaborators unit unit demo_uuid4
    (fun _ prompt => if String.eqb prompt "noise" then None else Some tt)
    (fun _ => Some tt)
    (fun _ _ _ => Some tt)
    (fun _ _ => true).

(** The service with the base model loaded, as [load_model] leaves it. *)
Definition demo_init : World :=
  init (Some (mkGenParams 30.0 1.0 3.0)) 0.

(** The service after a client enqueued ["noise"] and then ["piano"]. *)
Definition demo_two_queued : World :=
  snd (queue_generation demo "piano" 30.0 None 3.0 1.0 None
         (snd (queue_generation demo "noise" 30.0 None 3.0 1.0 None demo_init))).

Definition demo_noise_data : TaskData :=
  mkTaskData "task-0" "noise" 30.0 None 3.0 1.0 None.

Definition demo_piano_data : TaskData :=
  mkTaskData "task-1" "piano" 30.0 None 3.0 1.0 None.

Definition demo_noise_row : GenerationTask :=
  mkGenerationTask "task-0" "noise" "queued" 0.0 30.0 None None (Some 0%Z) None.

Definition demo_piano_row : GenerationTask :=
  mkGenerationTask "task-1" "piano" "queued" 0.0 30.0 None None (Some 0%Z) None.

(** *** A concrete controller *)

(** A dataset directory with two audio files and a text file, no manifest
    yet, and a base model that loads. *)
Definition demo_training : Training.World :=
  Training.init ["a.wav"; "b.mp3"; "notes.txt"] None None 0.

(** The same without any audio file. *)
Definition demo_no_audio : Training.World :=
  Training.init ["notes.txt"] None None 0.

(** The controller after an undisturbed [process_dataset]. *)
Definition demo_dataset_ready : Training.World :=
  Training.process_dataset (fun _ => false) demo_training.

Definition demo_strftime (t : Z) : string := "2024-01-01 00:0" ++ pretty t.

(** A stop request served during the second epoch. *)
Definition stop_in_second_epoch (k : nat) : bool := Nat.eqb k 2.

(** *** Vocabulary of the further properties *)

(** Every row is stored under its own identifier. *)
Definition keyed (w : World) : Prop :=
  forall k r, tasks w !! k = Some r -> gt_id r = k.

(** A row at rest: [completed] or [failed]. *)
Definition terminal (r : GenerationTask) : Prop :=
  gt_status r = "completed" \/ gt_status r = "failed".

(** A row that failed. *)
Definition failed_row (r : GenerationTask) : Prop :=
  gt_status r = "failed" /\ gt_progress r = 0.0%float.

(** The path of the audio file of the task [id]. *)
Definition output_path (id : string) : string :=
  "generations/generation_" ++ id ++ ".wav".

(** The stem [audio_write] is given for the task [id] (lines 150-154);
    the writer appends the extension. *)
Definition output_stem (id : string) : string :=
  "generations/generation_" ++ id.

(** The parameters [_process_generation] installs for the descriptor [d]
    (lines 118-122). *)
Definition params_of (d : TaskData) : GenParams :=
  mkGenParams (td_duration d) (td_temperature d) (td_guidance_scale d).

(** The raw output of the model for the descriptor [d] under the
    parameters [p] (lines 128-144): conditioned on the audio the descriptor
    names when it names one, from the prompt alone otherwise; [None] when
    a call raises. *)
Definition raw_output (E : Collaborators) (d : TaskData) (p : GenParams)
    : option (Wav E) :=
  match td_audio_conditioning d with
  | Some path =>
      match audio_read E path with
      | Some melody => generate_with_chroma E p (td_prompt d) melody
      | None => None
      end
  | None => model_generate E p (td_prompt d)
  end.

(** The shape of a row between two calls on the service: queued and
    untouched, completed with its file written, or failed without a file. *)
Definition row_ok (w : World) (r : GenerationTask) : Prop :=
  (gt_status r = "queued" /\ gt_progress r = 0.0%float /\
   gt_file_path r = None) \/
  (gt_status r = "completed" /\ gt_progress r = 1.0%float /\
   gt_file_path r = Some (output_path (gt_id r)) /\
   output_path (gt_id r) ∈ generations w) \/
  (gt_status r = "failed" /\ gt_progress r = 0.0%float /\
   gt_file_path r = None).

(** The descriptor [queue_generation] builds for a variation. *)
Definition variation_data (E : Collaborators) (random : nat -> float)
    (base_prompt : string) (duration : float) (model_id : option string)
    (min_temp max_temp : float) (k draw : nat) (i : nat) : TaskData :=
  mkTaskData (uuid4 E (draw + i)) base_prompt duration model_id 3.0
    (Batch.uniform random min_temp max_temp (k + i)) None.

(** The rows of a history: each under its identifier, each at rest. *)
Definition rows_inv (w : World) : Prop :=
  forall k r, tasks w !! k = Some r -> gt_id r = k /\ row_ok w r.

(** A prompt built from the two tables for a theme. *)
Definition themed (theme prompt : string) : Prop :=
  exists variation element,
    variation ∈ Batch.variations theme /\
    element ∈ Batch.elements /\
    prompt = variation ++ " " ++ element ++ ".".

(** The manifest entry [process_dataset] writes for the file [f] of the
    dataset directory: the path of its only chunk and the caption. *)
Definition manifest_entry (f : string) : string * string :=
  ("dataset/" ++ f, Training._generate_caption ("dataset/" ++ f)).

(** The manifest of an undisturbed run. *)
Definition full_manifest (w : Training.World) : list (string * string) :=
  manifest_entry <$> Training.audio_files w.

(** The character [c] does not occur in [s]. *)
Definition lacks (c : Ascii.ascii) (s : string) : Prop :=
  Training.rfind c s 0 = None.

(** The concrete service after both tasks were processed, and the row of
    the completed one. *)
Definition demo_processed : World := worker demo 2 demo_two_queued.


(** A generator for the examples of the batch helper. *)
Definition demo_random (k : nat) : float :=
  match k with
  | O => 0.0%float
  | S _ => 0.5%float
  end.

Definition demo_die (k : nat) : nat := 7 * k + 3.

(** * Properties of the generation queue and its worker *)

Section GenerationProperties.

Variable E : Collaborators.

Local Ltac finish_run :=
  do 2 eexists;
  rewrite <- ?app_assoc, ?insert_insert_eq;
  repeat (split; [reflexivity|]);
  split; [repeat constructor; discriminate|];
  repeat (split; [reflexivity|]);
  first [ apply run_completed; reflexivity
        | apply run_failed; reflexivity ].

Lemma process_generation_found (d : TaskData) (w : World)
    (t : GenerationTask) :
  tasks w !! td_task_id d = Some t ->
  exists commits t',
    let w' := _process_generation E d w in
    db_log w' = (db_log w ++ commits)%list /\
    tasks w' = <[gt_id t := t']> (tasks w) /\
    generation_queue w' = generation_queue w /\
    is_processing w' = is_processing w /\
    uuid_draws w' = uuid_draws w /\
    clock w' = clock w /\
    last commits = Some t' /\
    Forall (fun c => gt_id c = gt_id t /\ gt_status c <> "queued") commits /\
    gt_id t' = gt_id t /\
    gt_prompt t' = gt_prompt t /\
    gt_created_at t' = gt_created_at t /\
    gt_completed_at t' = gt_completed_at t /\
    run_result t commits t' (fst (process_body E d (mkFrame w t))).
Proof.
  intros Ht. unfold _process_generation. rewrite Ht.
  unfold try_except, process_body, process_handler, set_generation_params,
    generate_music, write_audio, bind, assign_task, commit, get_world,
    get_task, put_world, call, ret, raise.
  cbn.
  destruct (model w) as [p|] eqn:Hm; cbn.
  - destruct (td_audio_conditioning d) as [path|]; cbn.
    + destruct (audio_read E path) as [melody|]; cbn; [|finish_run].
      destruct (generate_with_chroma E _ (td_prompt d) melody) as [wav|];
        cbn; [|finish_run].
      destruct (audio_write E _ wav); cbn; finish_run.
    + destruct (model_generate E _ (td_prompt d)) as [wav|];
        cbn; [|finish_run].
      destruct (audio_write E _ wav); cbn; finish_run.
  - finish_run.
Qed.

(** Whether the [try] block raises depends on the world only through the
    loaded model. *)
Lemma process_body_outcome_model (d : TaskData) (w1 w2 : World)
    (t : GenerationTask) :
  model w1 = model w2 ->
  fst (process_body E d (mkFrame w1 t)) = fst (process_body E d (mkFrame w2 t)).
Proof.
  intros Hm.
  unfold process_body, set_generation_params, generate_music, write_audio,
    bind, assign_task, commit, get_world, get_task, put_world, call, ret,
    raise.
  cbn. rewrite <- Hm.
  destruct (model w1) as [p|]; cbn; [|reflexivity].
  destruct (td_audio_conditioning d) as [path|]; cbn.
  - destruct (audio_read E path) as [melody|]; cbn; [|reflexivity].
    destruct (generate_with_chroma E _ (td_prompt d) melody) as [wav|];
      cbn; [|reflexivity].
    destruct (audio_write E _ wav); reflexivity.
  - destruct (model_generate E _ (td_prompt d)) as [wav|];
      cbn; [|reflexivity].
    destruct (audio_write E _ wav); reflexivity.
Qed.

(** Two ways for the generation to raise: no model is loaded, or the
    text-to-music call of the model fails. *)
Lemma raises_without_model (d : TaskData) (w : World) (t : GenerationTask) :
  model w = None -> raises E d w t.
Proof.
  intros Hm. unfold raises, process_body, set_generation_params, bind,
    assign_task, commit, get_world, raise.
  cbn. rewrite Hm. reflexivity.
Qed.

Lemma raises_when_generate_fails (d : TaskData) (w : World)
    (t : GenerationTask) :
  is_Some (model w) ->
  td_audio_conditioning d = None ->
  model_generate E
    (mkGenParams (td_duration d) (td_temperature d) (td_guidance_scale d))
    (td_prompt d) = None ->
  raises E d w t.
Proof.
  intros [p Hm] Hcond Hgen.
  unfold raises, process_body, set_generation_params, generate_music, bind,
    assign_task, commit, get_world, put_world, call, raise.
  cbn. rewrite Hm. cbn. rewrite Hcond, Hgen. reflexivity.
Qed.

(** No path through [_process_generation] assigns [completed_at]: the row
    ends [completed] or [failed] with the value it had. *)
Lemma completed_at_never_assigned (d : TaskData) (w : World)
    (t : GenerationTask) :
  tasks w !! td_task_id d = Some t ->
  gt_id t = td_task_id d ->
  exists t',
    tasks (_process_generation E d w) !! td_task_id d = Some t' /\
    (gt_status t' = "completed" \/ gt_status t' = "failed") /\
    gt_completed_at t' = gt_completed_at t /\
    gt_created_at t' = gt_created_at t.
Proof.
  intros Ht Hid.
  destruct (process_generation_found d w t Ht)
    as (commits & t' & _ & Htasks & _ & _ & _ & _ & _ & _ & _ & _ & Hcr
        & Hdone & Hres).
  exists t'. cbn in Htasks. rewrite Htasks, Hid.
  split; [apply lookup_insert_eq|].
  split; [destruct Hres; [left | right]; assumption|].
  split; assumption.
Qed.

(** One turn of the worker on a non-empty queue. *)
Lemma worker_iteration_cons (w : World) (d : TaskData)
    (rest : list TaskData) :
  generation_queue w = d :: rest ->
  worker_iteration E w
    = with_is_processing
        (_process_generation E d (with_queue (with_is_processing w true) rest))
        false.
Proof.
  intros Hq. unfold worker_iteration. rewrite Hq. cbn. rewrite Hq.
  reflexivity.
Qed.

(** A turn of the worker on a descriptor whose row exists: the queue
    loses its head, only that row changes. *)
Lemma worker_iteration_found (w : World) (d : TaskData)
    (rest : list TaskData) (t : GenerationTask) :
  generation_queue w = d :: rest ->
  tasks w !! td_task_id d = Some t ->
  exists commits t',
    let w' := worker_iteration E w in
    db_log w' = (db_log w ++ commits)%list /\
    tasks w' = <[gt_id t := t']> (tasks w) /\
    generation_queue w' = rest /\
    is_processing w' = false /\
    uuid_draws w' = uuid_draws w /\
    last commits = Some t' /\
    gt_id t' = gt_id t /\
    gt_completed_at t' = gt_completed_at t /\
    run_result t commits t' (fst (process_body E d (mkFrame w t))).
Proof.
  intros Hq Ht. rewrite (worker_iteration_cons w d rest Hq).
  destruct (process_generation_found d
              (with_queue (with_is_processing w true) rest) t Ht)
    as (commits & t' & Hlog & Htasks & Hqueue & _ & Hdraws & _ & Hlast & _
        & Hid & _ & _ & Hdone & Hres).
  rewrite <- (process_body_outcome_model d w
                (with_queue (with_is_processing w true) rest) t eq_refl)
    in Hres.
  exists commits, t'. cbn in *.
  repeat split; assumption.
Qed.

(* One outcome of the [try] block, the calls of the collaborators being
   settled: the rows committed are read off the final world and every
   conjunct is decided on them. *)
Local Ltac checkpoint_case :=
  eexists _, _;
  split; [rewrite <- ?app_assoc; reflexivity|];
  split; [cbn; rewrite ?insert_insert_eq; apply lookup_insert_eq|];
  split; [reflexivity|];
  cbn;
  repeat match goal with
         | |- _ /\ _ => split
         | |- _ <-> _ => split
         | |- _ -> _ => intro
         | |- forall _, _ => intro
         end;
  repeat match goal with
         | H : _ /\ _ |- _ => destruct H
         | H : ex _ |- _ => destruct H
         | H : is_Some _ |- _ => destruct H
         | H : Some _ = Some _ |- _ => injection H as H; subst
         end;
  try discriminate; try congruence; try reflexivity;
  try (eexists; reflexivity);
  try (eexists; split; [reflexivity | assumption]).

(** C5.  A task taken from the queue as it was created (no file path
    yet) is persisted checkpoint by checkpoint, each checkpoint after the
    stage it reports:
    - the first row committed is the row entering [processing] with
      progress 0.1;
    - 0.3 is committed after the parameters of the descriptor are
      installed in the model: without a model the rows committed carry 0.1
      and the 0.0 of the failure, and the model stays missing;
    - 0.8 is committed after the model produced its raw output: when the
      model call raises, the rows carry 0.1, 0.3 and 0.0, the parameters
      being installed;
    - 1.0 is committed after the output file is written: when the writer
      raises, the rows carry 0.1, 0.3, 0.8 and 0.0 and no file is added.
    The task completes exactly when the model is loaded, the model
    produces an output and the writer stores it; the rows committed then
    carry 0.1, 0.3, 0.8, 1.0 in this order, which is strictly increasing,
    the last of them being the completed row with the path of the file
    that was added to [generations/], and the model holds the parameters
    of the descriptor.  The row ends with a file path exactly when it ends
    completed. *)
Theorem progress_checkpoints (d : TaskData) (w : World)
    (t : GenerationTask) :
  tasks w !! td_task_id d = Some t ->
  gt_id t = td_task_id d ->
  gt_file_path t = None ->
  let p := params_of d in
  let stem := output_stem (td_task_id d) in
  let w' := _process_generation E d w in
  exists commits t',
    db_log w' = (db_log w ++ commits)%list /\
    tasks w' !! td_task_id d = Some t' /\
    last commits = Some t' /\
    (is_Some (gt_file_path t') <-> gt_status t' = "completed") /\
    (gt_status t' = "completed" ->
       gt_progress <$> commits = [0.1; 0.3; 0.8; 1.0]%float /\
       strictly_increasing (gt_progress <$> commits) = true /\
       gt_status <$> commits
         = ["processing"; "processing"; "processing"; "completed"]) /\
    head commits = Some (set_progress 0.1%float (set_status "processing" t)) /\
    (gt_status t' = "completed" <->
       is_Some (model w) /\
       exists wav, raw_output E d p = Some wav /\
                   audio_write E stem wav = true) /\
    (gt_status t' = "completed" ->
       model w' = Some p /\
       generations w' = (generations w ++ [output_path (td_task_id d)])%list /\
       gt_file_path t' = Some (output_path (td_task_id d))) /\
    (model w = None ->
       gt_progress <$> commits = [0.1; 0.0]%float /\
       gt_status t' = "failed" /\
       model w' = None /\
       generations w' = generations w) /\
    (is_Some (model w) -> raw_output E d p = None ->
       gt_progress <$> commits = [0.1; 0.3; 0.0]%float /\
       gt_status t' = "failed" /\
       model w' = Some p /\
       generations w' = generations w) /\
    (is_Some (model w) -> forall wav, raw_output E d p = Some wav ->
       audio_write E stem wav = false ->
       gt_progress <$> commits = [0.1; 0.3; 0.8; 0.0]%float /\
       gt_status t' = "failed" /\
       model w' = Some p /\
       generations w' = generations w).
Proof.
  intros Ht Hid Hfile p stem w'. subst p stem w'.
  unfold _process_generation. rewrite Ht, <- Hid.
  unfold raw_output, params_of, output_stem, output_path.
  unfold try_except, process_body, process_handler, set_generation_params,
    generate_music, write_audio, bind, assign_task, commit, get_world,
    get_task, put_world, call, ret, raise.
  cbn.
  destruct (model w) as [p0|] eqn:Hm; cbn.
  - destruct (td_audio_conditioning d) as [path|]; cbn.
    + destruct (audio_read E path) as [melody|]; cbn; [|checkpoint_case].
      destruct (generate_with_chroma E _ (td_prompt d) melody) as [wav|];
        cbn; [|checkpoint_case].
      change (audio_write E _ wav)
        with (audio_write E ("generations/generation_" ++ gt_id t) wav).
      destruct (audio_write E _ wav) eqn:Hw; cbn; checkpoint_case.
    + destruct (model_generate E _ (td_prompt d)) as [wav|];
        cbn; [|checkpoint_case].
      change (audio_write E _ wav)
        with (audio_write E ("generations/generation_" ++ gt_id t) wav).
      destruct (audio_write E _ wav) eqn:Hw; cbn; checkpoint_case.
  - checkpoint_case.
Qed.

(** C3.  When the generation of the oldest descriptor raises, the turn of
    the worker that takes it leaves its row failed with progress 0.0 and
    the worker is back in its loop; the next turn takes the next
    descriptor off the queue and processes it to a terminal status, the
    failed row staying as it is. *)
Theorem failure_does_not_stall (w : World) (d d' : TaskData)
    (rest : list TaskData) (t t' : GenerationTask) :
  generation_queue w = d :: d' :: rest ->
  tasks w !! td_task_id d = Some t ->
  gt_id t = td_task_id d ->
  tasks w !! td_task_id d' = Some t' ->
  gt_id t' = td_task_id d' ->
  td_task_id d <> td_task_id d' ->
  raises E d w t ->
  let w1 := worker_iteration E w in
  let w2 := worker_iteration E w1 in
  (exists r, tasks w1 !! td_task_id d = Some r /\
     gt_status r = "failed" /\ gt_progress r = 0.0%float) /\
  generation_queue w1 = d' :: rest /\
  is_processing w1 = false /\
  generation_queue w2 = rest /\
  tasks w2 !! td_task_id d = tasks w1 !! td_task_id d /\
  (exists r', tasks w2 !! td_task_id d' = Some r' /\
     (gt_status r' = "completed" \/ gt_status r' = "failed")).
Proof.
  intros Hq Ht Hid Ht' Hid' Hne Hraise w1 w2.
  destruct (worker_iteration_found w d (d' :: rest) t Hq Ht)
    as (commits & r & _ & Htasks & Hqueue & Hproc & _ & _ & _ & _ & Hres).
  cbn in Htasks, Hqueue, Hproc. fold w1 in Htasks, Hqueue, Hproc.
  unfold raises in Hraise. rewrite Hraise in Hres.
  inversion Hres as [| Hs Hp _].
  assert (Ht1' : tasks w1 !! td_task_id d' = Some t').
  { rewrite Htasks, Hid. rewrite lookup_insert_ne by assumption.
    assumption. }
  destruct (worker_iteration_found w1 d' rest t' Hqueue Ht1')
    as (commits' & r' & _ & Htasks' & Hqueue' & _ & _ & _ & _ & _ & Hres').
  cbn in Htasks', Hqueue'. fold w2 in Htasks', Hqueue'.
  split.
  { exists r. rewrite Htasks, Hid. split; [apply lookup_insert_eq|].
    split; assumption. }
  split; [assumption|]. split; [assumption|]. split; [assumption|].
  split.
  { rewrite Htasks', Hid'. apply lookup_insert_ne. congruence. }
  exists r'. rewrite Htasks', Hid'. split; [apply lookup_insert_eq|].
  destruct Hres'; [left | right]; assumption.
Qed.

(** *** First in, first out *)

Lemma fifo_inv_init (m : option GenParams) (now : Z) :
  fifo_inv E (mkTrace (init m now) [] []) 0.
Proof.
  split; cbn; try reflexivity; intros; lia.
Qed.

Lemma seq_snoc (a k : nat) : seq a (S k) = (seq a k ++ [a + k])%list.
Proof. rewrite <- Nat.add_1_r. rewrite seq_app. reflexivity. Qed.

Lemma fifo_inv_enqueue (tr : Trace) (n : nat) (prompt : string)
    (duration : float) (model_id : option string)
    (guidance_scale temperature : float) (audio_conditioning : option string) :
  (forall i j, uuid4 E i = uuid4 E j -> i = j) ->
  fifo_inv E tr n ->
  fifo_inv E
    (step E tr
       (Enqueue prompt duration model_id guidance_scale temperature
          audio_conditioning)) n.
Proof.
  intros Hinj [Hle Henq Hpop Hq Hdone Hwait].
  destruct tr as [w enq pop]. cbn in *.
  split; cbn -[seq].
  - lia.
  - rewrite Henq, seq_snoc, fmap_app. reflexivity.
  - assumption.
  - unfold queue_put. rewrite fmap_app, Hq. cbn.
    replace (S (uuid_draws w) - n) with (S (uuid_draws w - n)) by lia.
    rewrite seq_snoc, fmap_app. cbn.
    replace (n + (uuid_draws w - n)) with (uuid_draws w) by lia.
    reflexivity.
  - intros i Hi. destruct (Hdone i Hi) as (r & Hr & Hid & Hs).
    exists r. split; [|split; assumption].
    rewrite lookup_insert_ne; [assumption|].
    intros Heq. apply Hinj in Heq. lia.
  - intros i Hi. destruct (decide (i = uuid_draws w)) as [->|Hne].
    + eexists. split; [apply lookup_insert_eq|]. split; reflexivity.
    + destruct (Hwait i) as (r & Hr & Hid & Hs); [lia|].
      exists r. split; [|split; assumption].
      rewrite lookup_insert_ne; [assumption|].
      intros Heq. apply Hinj in Heq. lia.
Qed.

Lemma fifo_inv_worker (tr : Trace) (n : nat) :
  (forall i j, uuid4 E i = uuid4 E j -> i = j) ->
  fifo_inv E tr n ->
  exists n', fifo_inv E (step E tr WorkerTurn) n'.
Proof.
  intros Hinj [Hle Henq Hpop Hq Hdone Hwait].
  destruct tr as [w enq pop]. cbn in *.
  destruct (generation_queue w) as [|d rest] eqn:Hqueue.
  - exists n.
    assert (Hw : worker_iteration E w = w).
    { unfold worker_iteration. rewrite Hqueue. reflexivity. }
    split; cbn; rewrite ?Hw, ?Hqueue, ?app_nil_r; assumption.
  - assert (Hlt : n < uuid_draws w).
    { destruct (decide (n < uuid_draws w)) as [|Hge]; [assumption|].
      replace (uuid_draws w - n) with 0 in Hq by lia. discriminate Hq. }
    replace (uuid_draws w - n) with (S (uuid_draws w - S n)) in Hq by lia.
    cbn in Hq. injection Hq as Hd Hrest.
    destruct (Hwait n) as (r & Hr & Hid & Hs); [lia|].
    rewrite <- Hd in Hr.
    destruct (worker_iteration_found w d rest r Hqueue Hr)
      as (commits & r' & _ & Htasks & Hqueue' & _ & Hdraws & _ & Hid' & _
          & Hres).
    cbn in Htasks, Hqueue', Hdraws.
    exists (S n). split; cbn -[seq].
    + rewrite Hdraws. lia.
    + rewrite Hdraws. assumption.
    + rewrite Hpop, seq_snoc, fmap_app, Hd. reflexivity.
    + rewrite Hqueue', Hdraws. assumption.
    + intros i Hi. rewrite Htasks, Hid.
      destruct (decide (i = n)) as [->|Hne].
      * exists r'. split; [apply lookup_insert_eq|].
        split; [congruence|].
        destruct Hres as [_ _ Hc | Hf]; [rewrite Hc | rewrite Hf];
          discriminate.
      * destruct (Hdone i) as (q & Hq' & Hqid & Hqs); [lia|].
        exists q. split; [|split; assumption].
        rewrite lookup_insert_ne; [assumption|].
        intros Heq. apply Hinj in Heq. lia.
    + intros i Hi. rewrite Hdraws in Hi. rewrite Htasks, Hid.
      destruct (Hwait i) as (q & Hq' & Hqid & Hqs); [lia|].
      exists q. split; [|split; assumption].
      rewrite lookup_insert_ne; [assumption|].
      intros Heq. apply Hinj in Heq. lia.
Qed.



(** C1, as the code has it.  [queue_generation] looks at neither the
    prompt nor the duration: every call draws an identifier, commits a row
    with status [queued] under it, appends the descriptor at the end of
    the queue and returns the row, without touching the worker. *)
Theorem queue_generation_always_enqueues (prompt : string) (duration : float)
    (model_id : option string) (guidance_scale temperature : float)
    (audio_conditioning : option string) (w : World) :
  let r := queue_generation E prompt duration model_id guidance_scale
             temperature audio_conditioning w in
  gt_id (fst r) = uuid4 E (uuid_draws w) /\
  gt_prompt (fst r) = prompt /\
  gt_duration (fst r) = duration /\
  gt_status (fst r) = "queued" /\
  tasks (snd r) !! gt_id (fst r) = Some (fst r) /\
  db_log (snd r) = (db_log w ++ [fst r])%list /\
  generation_queue (snd r)
    = (generation_queue w ++
       [mkTaskData (gt_id (fst r)) prompt duration model_id guidance_scale
          temperature audio_conditioning])%list /\
  is_processing (snd r) = is_processing w.
Proof.
  cbn. repeat split. apply lookup_insert_eq.
Qed.

End GenerationProperties.

Lemma demo_uuid4_inj (i j : nat) : uuid4 demo i = uuid4 demo j -> i = j.
Proof.
  cbn. unfold demo_uuid4. intros H.
  apply (inj (String.app "task-")) in H.
  apply (inj pretty) in H. exact H.
Defined.

Example demo_two_queued_queue :
  td_task_id <$> generation_queue demo_two_queued = ["task-0"; "task-1"].
Proof. reflexivity. Qed.

Example demo_first_turn_fails :
  gt_status <$> (tasks (worker demo 1 demo_two_queued) !! "task-0")
    = Some "failed".
Proof. vm_compute. reflexivity. Qed.

Example demo_second_turn_completes :
  gt_status <$> (tasks (worker demo 2 demo_two_queued) !! "task-1")
    = Some "completed".
Proof. vm_compute. reflexivity. Qed.

(** C5 on the concrete service: the model is loaded, it produces an
    output for ["piano"] and the writer stores it; the row of ["piano"] is
    processed to completion through the four checkpoints, its file is in
    [generations/] and the model holds the parameters of the descriptor. *)
Lemma progress_checkpoints_witness :
  (tasks demo_two_queued !! td_task_id demo_piano_data = Some demo_piano_row /\
   gt_id demo_piano_row = td_task_id demo_piano_data /\
   gt_file_path demo_piano_row = None) /\
  (is_Some (model demo_two_queued) /\
   raw_output demo demo_piano_data (params_of demo_piano_data) = Some tt /\
   audio_write demo (output_stem "task-1") tt = true) /\
  exists commits t',
    let w' := _process_generation demo demo_piano_data demo_two_queued in
    db_log w' = (db_log demo_two_queued ++ commits)%list /\
    tasks w' !! "task-1" = Some t' /\
    last commits = Some t' /\
    gt_status t' = "completed" /\
    gt_file_path t' = Some "generations/generation_task-1.wav" /\
    gt_progress <$> commits = [0.1; 0.3; 0.8; 1.0]%float /\
    strictly_increasing (gt_progress <$> commits) = true /\
    gt_status <$> commits
      = ["processing"; "processing"; "processing"; "completed"] /\
    head commits
      = Some (set_progress 0.1%float (set_status "processing" demo_piano_row)) /\
    model w' = Some (mkGenParams 30.0 1.0 3.0) /\
    generations w' = ["generations/generation_task-1.wav"].
Proof.
  split; [split; [vm_compute; reflexivity | split; reflexivity]|].
  split; [split; [eexists; reflexivity | split; reflexivity]|].
  destruct (progress_checkpoints demo demo_piano_data demo_two_queued
              demo_piano_row)
    as (commits & t' & Hlog & Htask & Hlast & _ & Hrows & Hhead & Hiff
        & Hout & _).
  - vm_compute. reflexivity.
  - reflexivity.
  - reflexivity.
  - assert (Hdone : gt_status t' = "completed").
    { apply Hiff.
      split; [eexists; reflexivity | exists tt; split; reflexivity]. }
    destruct (Hrows Hdone) as (Hp & Hinc & Hst).
    destruct (Hout Hdone) as (Hmod & Hgen & Hpath).
    exists commits, t'. repeat split; assumption.
Defined.

(** The model call raises on ["noise"]: its row is persisted at 0.1 and
    0.3, then failed, and no file is written. *)
Example demo_noise_checkpoints :
  let w' := _process_generation demo demo_noise_data demo_two_queued in
  gt_progress <$> drop 2 (db_log w') = [0.1; 0.3; 0.0]%float /\
  gt_status <$> drop 2 (db_log w') = ["processing"; "processing"; "failed"] /\
  generations w' = [].
Proof. vm_compute. repeat split; reflexivity. Qed.

(** C3 on the concrete service: ["noise"] fails, ["piano"] is processed by
    the next turn. *)
Lemma failure_does_not_stall_witness :
  (generation_queue demo_two_queued = [demo_noise_data; demo_piano_data] /\
   tasks demo_two_queued !! td_task_id demo_noise_data = Some demo_noise_row /\
   gt_id demo_noise_row = td_task_id demo_noise_data /\
   tasks demo_two_queued !! td_task_id demo_piano_data = Some demo_piano_row /\
   gt_id demo_piano_row = td_task_id demo_piano_data /\
   td_task_id demo_noise_data <> td_task_id demo_piano_data /\
   raises demo demo_noise_data demo_two_queued demo_noise_row) /\
  let w1 := worker_iteration demo demo_two_queued in
  let w2 := worker_iteration demo w1 in
  (exists r, tasks w1 !! td_task_id demo_noise_data = Some r /\
     gt_status r = "failed" /\ gt_progress r = 0.0%float) /\
  generation_queue w1 = [demo_piano_data] /\
  is_processing w1 = false /\
  generation_queue w2 = [] /\
  tasks w2 !! td_task_id demo_noise_data
    = tasks w1 !! td_task_id demo_noise_data /\
  (exists r', tasks w2 !! td_task_id demo_piano_data = Some r' /\
     (gt_status r' = "completed" \/ gt_status r' = "failed")).
Proof.
  assert (H1 : generation_queue demo_two_queued
               = [demo_noise_data; demo_piano_data]) by reflexivity.
  assert (H2 : tasks demo_two_queued !! td_task_id demo_noise_data
               = Some demo_noise_row) by (vm_compute; reflexivity).
  assert (H3 : tasks demo_two_queued !! td_task_id demo_piano_data
               = Some demo_piano_row) by (vm_compute; reflexivity).
  assert (H4 : td_task_id demo_noise_data <> td_task_id demo_piano_data)
    by discriminate.
  assert (H5 : raises demo demo_noise_data demo_two_queued demo_noise_row)
    by reflexivity.
  split.
  - repeat split; try assumption.
  - exact (failure_does_not_stall demo demo_two_queued demo_noise_data
             demo_piano_data [] demo_noise_row demo_piano_row
             H1 H2 eq_refl H3 eq_refl H4 H5).
Defined.


Example fifo_order_demo_trace :
  let tr :=
    run demo
      [Enqueue "noise" 30.0 None 3.0 1.0 None;
       Enqueue "piano" 30.0 None 3.0 1.0 None;
       WorkerTurn;
       Enqueue "strings" 30.0 None 3.0 1.0 None;
       WorkerTurn]
      demo_init in
  tr_enqueued tr = ["task-0"; "task-1"; "task-2"] /\
  tr_popped tr = ["task-0"; "task-1"] /\
  td_task_id <$> generation_queue (tr_world tr) = ["task-2"].
Proof. vm_compute. repeat split. Qed.

(** C1, as stated, fails.  An empty prompt with a duration inside the
    configured bounds, and a prompt with a duration of 1000 seconds, far
    outside them, are both accepted: a row is persisted as [queued] and a
    descriptor is put on the queue. *)
Lemma queue_generation_accepts_invalid_requests :
  let r1 := queue_generation demo "" 30.0 None 3.0 1.0 None demo_init in
  let r2 := queue_generation demo "piano" 1000.0 None 3.0 1.0 None demo_init in
  (Config.duration_in_bounds 30.0 = true /\
   Config.duration_in_bounds 1000.0 = false /\
   generation_queue demo_init = [] /\
   tasks (snd r1) !! "task-0"
     = Some (mkGenerationTask "task-0" "" "queued" 0.0 30.0 None None
               (Some 0%Z) None) /\
   generation_queue (snd r1)
     = [mkTaskData "task-0" "" 30.0 None 3.0 1.0 None] /\
   tasks (snd r2) !! "task-0"
     = Some (mkGenerationTask "task-0" "piano" "queued" 0.0 1000.0 None None
               (Some 0%Z) None) /\
   generation_queue (snd r2)
     = [mkTaskData "task-0" "piano" 1000.0 None 3.0 1.0 None]) /\
  ~ rejects_invalid_requests demo.
Proof.
  split.
  - vm_compute. repeat split.
  - intros H.
    destruct (H "" 30.0%float None 3.0%float 1.0%float None demo_init
                (or_introl eq_refl)) as (_ & _ & Hq).
    discriminate Hq.
Qed.

(** C7 on the code.  After the worker has brought a task to [completed],
    and another one to [failed], [created_at] holds the time of the insert
    and [completed_at] is still NULL: nothing in [musicgen_service.py]
    assigns it. *)
Lemma completed_at_stays_null :
  let w := worker demo 2 demo_two_queued in
  tasks w !! "task-0"
    = Some (mkGenerationTask "task-0" "noise" "failed" 0.0 30.0 None None
              (Some 0%Z) None) /\
  tasks w !! "task-1"
    = Some (mkGenerationTask "task-1" "piano" "completed" 1.0 30.0
              (Some "generations/generation_task-1.wav") None (Some 0%Z) None).
Proof. vm_compute. repeat split. Qed.

(** * Properties of the batch helper *)

Section BatchProperties.

Variable E : Collaborators.

Lemma sequential_loop_spec (prompts : list string) (duration : float)
    (model_id : option string) (guidance_scale temperature : float)
    (task_ids : list string) (w : World) :
  let r := Batch.sequential_loop E prompts duration model_id guidance_scale
             temperature task_ids w in
  let data := batch_data E prompts duration model_id guidance_scale temperature
                (uuid_draws w) in
  fst r = (task_ids ++ (td_task_id <$> data))%list /\
  generation_queue (snd r) = (generation_queue w ++ data)%list /\
  uuid_draws (snd r) = uuid_draws w + length prompts.
Proof.
  revert task_ids w.
  induction prompts as [|prompt rest IH]; intros task_ids w; cbn.
  - rewrite !app_nil_r. repeat split. lia.
  - destruct (IH (task_ids ++ [uuid4 E (uuid_draws w)])%list
                (snd (queue_generation E prompt duration model_id
                        guidance_scale temperature None w)))
      as (Hids & Hq & Hd).
    cbn in Hids, Hq, Hd.
    split; [|split].
    + rewrite Hids, <- app_assoc. reflexivity.
    + rewrite Hq. unfold queue_put. rewrite <- app_assoc. reflexivity.
    + rewrite Hd. lia.
Qed.

Lemma concurrent_loop_sequential (prompts : list string) (duration : float)
    (model_id : option string) (guidance_scale temperature : float)
    (task_ids : list string) (w : World) :
  Batch.concurrent_loop E prompts duration model_id guidance_scale temperature
    task_ids w
  = Batch.sequential_loop E prompts duration model_id guidance_scale
      temperature task_ids w.
Proof.
  revert task_ids w.
  induction prompts as [|prompt rest IH]; intros task_ids w; cbn.
  - reflexivity.
  - apply IH.
Qed.

Lemma batch_data_prompts (prompts : list string) (duration : float)
    (model_id : option string) (guidance_scale temperature : float)
    (k : nat) :
  td_prompt <$>
    batch_data E prompts duration model_id guidance_scale temperature k
  = prompts.
Proof.
  revert k. induction prompts as [|prompt rest IH]; intros k; cbn.
  - reflexivity.
  - rewrite IH. reflexivity.
Qed.

(** C10.  [generate_batch] does not depend on [max_concurrent]: both
    branches enqueue the prompts one after the other through
    [queue_generation], so any two values give the same identifiers and the
    same final state.  One descriptor per prompt is appended to the queue,
    in the order of the prompts, and the identifiers returned are those of
    these descriptors in the same order. *)
Theorem generate_batch_ignores_max_concurrent (prompts : list string)
    (duration : float) (model_id : option string)
    (guidance_scale temperature : float) (max_concurrent other : Z)
    (w : World) :
  let r := Batch.generate_batch E prompts duration model_id guidance_scale
             temperature max_concurrent w in
  let data := batch_data E prompts duration model_id guidance_scale temperature
                (uuid_draws w) in
  r = Batch.generate_batch E prompts duration model_id guidance_scale
        temperature other w /\
  r = Batch.sequential_loop E prompts duration model_id guidance_scale
        temperature [] w /\
  r = Batch.concurrent_loop E prompts duration model_id guidance_scale
        temperature [] w /\
  fst r = td_task_id <$> data /\
  td_prompt <$> data = prompts /\
  length (fst r) = length prompts /\
  generation_queue (snd r) = (generation_queue w ++ data)%list.
Proof.
  cbn zeta.
  assert (Hall : forall mc,
            Batch.generate_batch E prompts duration model_id guidance_scale
              temperature mc w
            = Batch.sequential_loop E prompts duration model_id guidance_scale
                temperature [] w).
  { intros mc. unfold Batch.generate_batch.
    destruct (mc =? 1)%Z; [reflexivity | apply concurrent_loop_sequential]. }
  rewrite !Hall.
  destruct (sequential_loop_spec prompts duration model_id guidance_scale
              temperature [] w) as (Hids & Hq & _).
  cbn in Hids, Hq.
  split; [reflexivity|]. split; [reflexivity|].
  split; [symmetry; apply concurrent_loop_sequential|].
  split; [assumption|]. split; [apply batch_data_prompts|].
  split; [|assumption].
  rewrite Hids, length_fmap.
  rewrite <- (batch_data_prompts prompts duration model_id guidance_scale
                temperature (uuid_draws w)) at 2.
  rewrite length_fmap. reflexivity.
Qed.

End BatchProperties.

Example generate_batch_demo :
  fst (Batch.generate_batch demo ["A"; "B"; "C"] 30.0 None 3.0 1.0 1 demo_init)
    = ["task-0"; "task-1"; "task-2"] /\
  fst (Batch.generate_batch demo ["A"; "B"; "C"] 30.0 None 3.0 1.0 4 demo_init)
    = ["task-0"; "task-1"; "task-2"].
Proof. vm_compute. split; reflexivity. Qed.

(** * Further properties of the generation queue *)

Section FurtherGeneration.

Variable E : Collaborators.

(** The files and the model after [_process_generation]: the output file
    is written exactly when the [try] block returns, and a missing model
    stays missing. *)
Lemma process_generation_files (d : TaskData) (w : World)
    (t : GenerationTask) :
  tasks w !! td_task_id d = Some t ->
  let w' := _process_generation E d w in
  generations w'
    = (generations w ++
       match fst (process_body E d (mkFrame w t)) with
       | Returned _ => [output_path (gt_id t)]
       | Raised => []
       end)%list /\
  (model w = None -> model w' = None).
Proof.
  intros Ht. unfold _process_generation. rewrite Ht.
  unfold try_except, process_body, process_handler, set_generation_params,
    generate_music, write_audio, bind, assign_task, commit, get_world,
    get_task, put_world, call, ret, raise, output_path.
  cbn.
  destruct (model w) as [p|] eqn:Hm; cbn.
  - destruct (td_audio_conditioning d) as [path|]; cbn.
    + destruct (audio_read E path) as [melody|]; cbn;
        [|rewrite app_nil_r; split; [reflexivity | discriminate]].
      destruct (generate_with_chroma E _ (td_prompt d) melody) as [wav|];
        cbn; [|rewrite app_nil_r; split; [reflexivity | discriminate]].
      destruct (audio_write E _ wav); cbn; rewrite ?app_nil_r;
        (split; [reflexivity | discriminate]).
    + destruct (model_generate E _ (td_prompt d)) as [wav|];
        cbn; [|rewrite app_nil_r; split; [reflexivity | discriminate]].
      destruct (audio_write E _ wav); cbn; rewrite ?app_nil_r;
        (split; [reflexivity | discriminate]).
  - rewrite Hm, app_nil_r. split; reflexivity.
Qed.

(** A turn of the worker on a descriptor whose row is gone. *)
Lemma worker_iteration_missing (w : World) (d : TaskData)
    (rest : list TaskData) :
  generation_queue w = d :: rest ->
  tasks w !! td_task_id d = None ->
  worker_iteration E w
    = with_is_processing (with_queue (with_is_processing w true) rest) false.
Proof.
  intros Hq Ht. rewrite (worker_iteration_cons E w d rest Hq).
  unfold _process_generation. cbn. rewrite Ht. reflexivity.
Qed.

(** The files and the model after a turn of the worker on a descriptor
    whose row exists. *)
Lemma worker_iteration_files (w : World) (d : TaskData)
    (rest : list TaskData) (t : GenerationTask) :
  generation_queue w = d :: rest ->
  tasks w !! td_task_id d = Some t ->
  let w' := worker_iteration E w in
  generations w'
    = (generations w ++
       match fst (process_body E d (mkFrame w t)) with
       | Returned _ => [output_path (gt_id t)]
       | Raised => []
       end)%list /\
  (model w = None -> model w' = None).
Proof.
  intros Hq Ht. rewrite (worker_iteration_cons E w d rest Hq).
  destruct (process_generation_files d
              (with_queue (with_is_processing w true) rest) t Ht)
    as [Hfiles Hmodel].
  rewrite <- (process_body_outcome_model E d w
                (with_queue (with_is_processing w true) rest) t eq_refl)
    in Hfiles.
  split; [exact Hfiles | exact Hmodel].
Qed.

(** A turn of the worker keeps every row under its identifier, loses no
    row, and leaves a terminal row terminal. *)
Lemma worker_iteration_rows (w : World) :
  keyed w ->
  keyed (worker_iteration E w) /\
  (forall k r, tasks w !! k = Some r ->
     exists r', tasks (worker_iteration E w) !! k = Some r' /\
       (terminal r -> terminal r')).
Proof.
  intros Hkeyed.
  destruct (generation_queue w) as [|d rest] eqn:Hq.
  - assert (Hw : worker_iteration E w = w).
    { unfold worker_iteration. rewrite Hq. reflexivity. }
    rewrite Hw. split; [assumption|]. intros k r Hr. exists r. tauto.
  - destruct (tasks w !! td_task_id d) as [t|] eqn:Ht.
    + destruct (worker_iteration_found E w d rest t Hq Ht)
        as (commits & t' & _ & Htasks & _ & _ & _ & _ & Hid & _ & Hres).
      cbn in Htasks. unfold keyed. rewrite Htasks. split.
      * intros k r Hr. destruct (decide (gt_id t = k)) as [<-|Hne].
        -- rewrite lookup_insert_eq in Hr. injection Hr as <-. assumption.
        -- rewrite lookup_insert_ne in Hr by assumption. eauto.
      * intros k r Hr. destruct (decide (gt_id t = k)) as [<-|Hne].
        -- exists t'. split; [apply lookup_insert_eq|]. intros _.
           destruct Hres; [left | right]; assumption.
        -- exists r. rewrite lookup_insert_ne by assumption. tauto.
    + rewrite (worker_iteration_missing w d rest Hq Ht). cbn.
      split; [assumption|]. intros k r Hr. exists r. tauto.
Qed.

(** With an empty queue the worker idles: its turns change nothing. *)
Lemma worker_idle (n : nat) (w : World) :
  generation_queue w = [] -> worker E n w = w.
Proof.
  intros Hq. induction n as [|n IH]; cbn; [reflexivity|].
  assert (Hw : worker_iteration E w = w).
  { unfold worker_iteration. rewrite Hq. reflexivity. }
  rewrite Hw. exact IH.
Qed.

(** X1.  As many turns as there are descriptors on the queue empty it:
    every descriptor whose row exists has then been brought to [completed]
    or [failed], and from there on the worker changes nothing until the
    next enqueue. *)
Theorem worker_drains_queue (w : World) :
  keyed w ->
  let w' := worker E (length (generation_queue w)) w in
  generation_queue w' = [] /\
  (forall d r, d ∈ generation_queue w ->
     tasks w !! td_task_id d = Some r ->
     exists r', tasks w' !! td_task_id d = Some r' /\ terminal r') /\
  (forall n, worker E n w' = w').
Proof.
  intros Hkeyed.
  assert (Hmain : forall q w0, generation_queue w0 = q -> keyed w0 ->
            generation_queue (worker E (length q) w0) = [] /\
            (forall k r, tasks w0 !! k = Some r ->
               exists r', tasks (worker E (length q) w0) !! k = Some r' /\
                 (terminal r \/ k ∈ td_task_id <$> q -> terminal r'))).
  { induction q as [|d rest IH]; intros w0 Hq Hk; cbn [length worker].
    - split; [assumption|]. intros k r Hr. exists r. split; [assumption|].
      intros [Ht|Hin]; [assumption|]. cbn in Hin. inversion Hin.
    - destruct (worker_iteration_rows w0 Hk) as [Hk1 Hrows].
      assert (Hq1 : generation_queue (worker_iteration E w0) = rest).
      { destruct (tasks w0 !! td_task_id d) as [t|] eqn:Ht.
        - destruct (worker_iteration_found E w0 d rest t Hq Ht)
            as (_ & _ & _ & _ & Hq' & _). exact Hq'.
        - rewrite (worker_iteration_missing w0 d rest Hq Ht). reflexivity. }
      destruct (IH (worker_iteration E w0) Hq1 Hk1) as [Hempty Hlater].
      split; [assumption|].
      intros k r Hr.
      destruct (Hrows k r Hr) as (r1 & Hr1 & Hterm1).
      destruct (Hlater k r1 Hr1) as (r' & Hr' & Hterm').
      exists r'. split; [assumption|].
      intros [Ht|Hin].
      + apply Hterm'. left. apply Hterm1. assumption.
      + cbn in Hin. apply elem_of_cons in Hin as [->|Hin].
        * apply Hterm'. left.
          destruct (worker_iteration_found E w0 d rest r Hq Hr)
            as (commits & t' & _ & Htasks & _ & _ & _ & _ & Hid & _ & Hres).
          cbn in Htasks. rewrite Htasks, (Hk _ _ Hr) in Hr1.
          rewrite lookup_insert_eq in Hr1. injection Hr1 as <-.
          destruct Hres; [left | right]; assumption.
        * apply Hterm'. right. assumption. }
  destruct (Hmain (generation_queue w) w eq_refl Hkeyed) as [Hempty Hrows].
  intros w'. split; [exact Hempty|]. split.
  - intros d r Hin Hr. destruct (Hrows _ r Hr) as (r' & Hr' & Hterm).
    exists r'. split; [assumption|]. apply Hterm. right.
    apply list_elem_of_fmap. exists d. split; [reflexivity | assumption].
  - intros n. apply worker_idle. exact Hempty.
Qed.

(** *** Rows at rest *)

Lemma row_ok_files (w w' : World) (r : GenerationTask) :
  (forall f, f ∈ generations w -> f ∈ generations w') ->
  row_ok w r -> row_ok w' r.
Proof.
  intros Hsub [Hq | [(Hs & Hp & Hf & Hin) | Hf]].
  - left. assumption.
  - right. left. repeat split; try assumption. apply Hsub. assumption.
  - right. right. assumption.
Qed.

Lemma rows_inv_step (tr : Trace) (n : nat) (c : Call) :
  fifo_inv E tr n ->
  rows_inv (tr_world tr) ->
  rows_inv (tr_world (step E tr c)).
Proof.
  intros [Hle Henq Hpop Hq Hdone Hwait] Hrows.
  destruct tr as [w enq pop]. cbn in *.
  destruct c as [prompt duration model_id gs temp ac|]; unfold rows_inv; cbn.
  - intros k r Hr.
    destruct (decide (uuid4 E (uuid_draws w) = k)) as [<-|Hne].
    + rewrite lookup_insert_eq in Hr. injection Hr as <-.
      split; [reflexivity|]. left. repeat split.
    + rewrite lookup_insert_ne in Hr by assumption.
      destruct (Hrows k r Hr) as [Hid Hok]. split; [assumption|].
      apply (row_ok_files w); [intros f Hf; exact Hf | assumption].
  - destruct (generation_queue w) as [|d rest] eqn:Hqueue.
    + assert (Hw : worker_iteration E w = w).
      { unfold worker_iteration. rewrite Hqueue. reflexivity. }
      rewrite Hw. assumption.
    + assert (Hlt : n < uuid_draws w).
      { destruct (decide (n < uuid_draws w)) as [|Hge]; [assumption|].
        replace (uuid_draws w - n) with 0 in Hq by lia. discriminate Hq. }
      replace (uuid_draws w - n) with (S (uuid_draws w - S n)) in Hq by lia.
      cbn in Hq. injection Hq as Hd _.
      destruct (Hwait n) as (r0 & Hr0 & Hid0 & Hs0); [lia|].
      rewrite <- Hd in Hr0.
      destruct (Hrows _ _ Hr0) as [_ Hok0].
      assert (Hfile0 : gt_file_path r0 = None).
      { destruct Hok0 as [(_ & _ & Hf) | [(Hs & _) | (Hs & _)]];
          [assumption | congruence | congruence]. }
      destruct (worker_iteration_found E w d rest r0 Hqueue Hr0)
        as (commits & t' & _ & Htasks & _ & _ & _ & _ & Hid' & _ & Hres).
      destruct (worker_iteration_files w d rest r0 Hqueue Hr0)
        as [Hfiles _].
      remember (fst (process_body E d (mkFrame w r0))) as o eqn:Ho.
      cbn in Htasks.
      intros k r Hr. rewrite Htasks in Hr.
      destruct (decide (gt_id r0 = k)) as [<-|Hne].
      * rewrite lookup_insert_eq in Hr. injection Hr as <-.
        split; [assumption|].
        destruct Hres as [_ _ Hs Hp Hf | Hs Hp Hf].
        -- right. left. rewrite Hid'. repeat split; try assumption.
           rewrite Hfiles. apply elem_of_app. right.
           apply list_elem_of_here.
        -- right. right. repeat split; try assumption. congruence.
      * rewrite lookup_insert_ne in Hr by assumption.
        destruct (Hrows k r Hr) as [Hid Hok]. split; [assumption|].
        apply (row_ok_files w); [|assumption].
        intros f Hf. rewrite Hfiles. apply elem_of_app. left. assumption.
Qed.

Lemma rows_inv_run (calls : list Call) (tr : Trace) (n : nat) :
  (forall i j, uuid4 E i = uuid4 E j -> i = j) ->
  fifo_inv E tr n ->
  rows_inv (tr_world tr) ->
  rows_inv (tr_world (fold_left (step E) calls tr)).
Proof.
  intros Hinj. revert tr n.
  induction calls as [|c calls IH]; intros tr n Hinv Hrows; cbn.
  - assumption.
  - assert (Hrows' : rows_inv (tr_world (step E tr c)))
      by (apply (rows_inv_step tr n); assumption).
    destruct c as [prompt duration model_id gs temp ac|].
    + apply (IH _ n); [|assumption]. apply fifo_inv_enqueue; assumption.
    + destruct (fifo_inv_worker E tr n Hinj Hinv) as [n' Hinv'].
      apply (IH _ n'); assumption.
Qed.

(** X2.  Between any two calls of a history on a fresh service every row
    is stored under its own identifier and is at rest: queued with progress
    0.0 and no file path, or completed with progress 1.0 and the path of a
    file that was written under [generations/], or failed with progress
    0.0 and no file path.  No row is ever left in [processing]. *)
Theorem rows_at_rest (calls : list Call) (m : option GenParams) (now : Z) :
  (forall i j, uuid4 E i = uuid4 E j -> i = j) ->
  let w := tr_world (run E calls (init m now)) in
  forall k r, tasks w !! k = Some r -> gt_id r = k /\ row_ok w r.
Proof.
  intros Hinj w. unfold w, run.
  apply (rows_inv_run calls _ 0 Hinj (fifo_inv_init E m now)).
  intros k r Hr. cbn in Hr. rewrite lookup_empty in Hr. discriminate.
Qed.

(** *** A service without a model *)

(** A turn of the worker when no model is loaded. *)
Lemma worker_iteration_no_model (w : World) :
  model w = None ->
  keyed w ->
  let w' := worker_iteration E w in
  model w' = None /\
  keyed w' /\
  generations w' = generations w /\
  generation_queue w' = tail (generation_queue w) /\
  (forall k r, tasks w !! k = Some r ->
     exists r', tasks w' !! k = Some r' /\
       (failed_row r \/ Some k = td_task_id <$> head (generation_queue w) ->
        failed_row r')).
Proof.
  intros Hm Hk w'. unfold w'.
  destruct (worker_iteration_rows w Hk) as [Hk' _].
  destruct (generation_queue w) as [|d rest] eqn:Hq.
  - assert (Hw : worker_iteration E w = w).
    { unfold worker_iteration. rewrite Hq. reflexivity. }
    rewrite Hw, Hq. repeat split; try assumption.
    intros k r Hr. exists r. split; [assumption|].
    intros [Hf|Hh]; [assumption | discriminate Hh].
  - destruct (tasks w !! td_task_id d) as [t|] eqn:Ht.
    + destruct (worker_iteration_found E w d rest t Hq Ht)
        as (commits & t' & _ & Htasks & Hq' & _ & _ & _ & Hid & _ & Hres).
      destruct (worker_iteration_files w d rest t Hq Ht) as [Hfiles Hmodel].
      rewrite (raises_without_model E d w t Hm) in Hres, Hfiles.
      cbn in Htasks, Hq'. rewrite app_nil_r in Hfiles.
      split; [apply Hmodel; assumption|]. split; [assumption|].
      split; [assumption|]. split; [assumption|].
      intros k r Hr. rewrite Htasks.
      destruct (decide (gt_id t = k)) as [<-|Hne].
      * exists t'. split; [apply lookup_insert_eq|]. intros _.
        inversion Hres. split; assumption.
      * exists r. rewrite lookup_insert_ne by assumption.
        split; [assumption|].
        intros [Hf|Hh]; [assumption|]. cbn in Hh. injection Hh as ->.
        rewrite Ht in Hr. injection Hr as <-.
        rewrite (Hk _ _ Ht) in Hne. contradiction.
    + rewrite (worker_iteration_missing w d rest Hq Ht). cbn.
      repeat split; try assumption.
      intros k r Hr. exists r. split; [assumption|].
      intros [Hf|Hh]; [assumption|]. cbn in Hh. injection Hh as ->.
      congruence.
Qed.

(** X3.  When the base model cannot be loaded at start-up, [load_model]
    leaves the service without a model and nothing loads one later: the
    worker still takes every descriptor off the queue, marks each task
    whose row exists failed with progress 0.0, and writes no file. *)
Theorem no_model_fails_every_task (path_exists get_pretrained : string -> bool)
    (w0 : World) :
  get_pretrained model_name = false ->
  keyed w0 ->
  let w := load_model path_exists get_pretrained None w0 in
  let w' := worker E (length (generation_queue w)) w in
  model w = None /\
  model w' = None /\
  generation_queue w' = [] /\
  generations w' = generations w0 /\
  (forall d r, d ∈ generation_queue w0 ->
     tasks w0 !! td_task_id d = Some r ->
     exists r', tasks w' !! td_task_id d = Some r' /\
       gt_status r' = "failed" /\ gt_progress r' = 0.0%float).
Proof.
  intros Hload Hkeyed w.
  assert (Hw : w = with_model w0 None).
  { unfold w, load_model. rewrite Hload. reflexivity. }
  assert (Hmain : forall q w1, generation_queue w1 = q -> model w1 = None ->
            keyed w1 ->
            let w2 := worker E (length q) w1 in
            model w2 = None /\ generation_queue w2 = [] /\
            generations w2 = generations w1 /\
            (forall k r, tasks w1 !! k = Some r ->
               exists r', tasks w2 !! k = Some r' /\
                 (failed_row r \/ k ∈ td_task_id <$> q -> failed_row r'))).
  { induction q as [|d rest IH]; intros w1 Hq Hm Hk; cbn [length worker].
    - repeat split; try assumption. intros k r Hr. exists r.
      split; [assumption|]. intros [Hf|Hin]; [assumption | inversion Hin].
    - destruct (worker_iteration_no_model w1 Hm Hk)
        as (Hm1 & Hk1 & Hg1 & Hq1 & Hrows1).
      rewrite Hq in Hq1, Hrows1. cbn in Hq1, Hrows1.
      destruct (IH (worker_iteration E w1) Hq1 Hm1 Hk1)
        as (Hm2 & Hq2 & Hg2 & Hrows2).
      split; [assumption|]. split; [assumption|].
      split; [congruence|].
      intros k r Hr.
      destruct (Hrows1 k r Hr) as (r1 & Hr1 & Hf1).
      destruct (Hrows2 k r1 Hr1) as (r2 & Hr2 & Hf2).
      exists r2. split; [assumption|].
      intros [Hf|Hin].
      + apply Hf2. left. apply Hf1. left. assumption.
      + cbn in Hin. apply elem_of_cons in Hin as [->|Hin].
        * apply Hf2. left. apply Hf1. right. reflexivity.
        * apply Hf2. right. assumption. }
  intros w'.
  destruct (Hmain (generation_queue w) w eq_refl) as (Hm' & Hq' & Hg' & Hrows).
  { rewrite Hw. reflexivity. }
  { rewrite Hw. exact Hkeyed. }
  split; [rewrite Hw; reflexivity|]. split; [exact Hm'|].
  split; [exact Hq'|]. split; [unfold w'; rewrite Hg', Hw; reflexivity|].
  intros d r Hin Hr.
  destruct (Hrows (td_task_id d) r) as (r' & Hr' & Hf).
  { rewrite Hw. exact Hr. }
  exists r'. split; [exact Hr'|]. apply Hf. right.
  apply list_elem_of_fmap. exists d. split; [reflexivity|].
  rewrite Hw. exact Hin.
Qed.

(** *** Reading and deleting tasks *)


(** What [delete_task] leaves of the world when the task exists. *)
Lemma delete_task_found (task_id : string) (w : World)
    (task : GenerationTask) :
  tasks w !! task_id = Some task ->
  gt_id task = task_id ->
  let w1 := snd (Api.delete_task task_id w) in
  tasks w1 = delete task_id (tasks w) /\
  db_log w1 = db_log w /\
  generation_queue w1 = generation_queue w.
Proof.
  intros Ht Hid. unfold Api.delete_task. rewrite Ht, Hid.
  destruct (gt_file_path task) as [path|]; cbn;
    [|repeat split].
  destruct (negb (String.eqb path "") && Api.path_exists path w);
    repeat split.
Qed.


(** X5.  A task deleted while its descriptor is still the oldest on the
    queue is skipped: the next turn of the worker takes the descriptor off
    the queue, commits nothing, writes nothing, and leaves the task
    deleted. *)
Theorem deleted_task_is_skipped (w : World) (d : TaskData)
    (rest : list TaskData) (task : GenerationTask) :
  generation_queue w = d :: rest ->
  tasks w !! td_task_id d = Some task ->
  gt_id task = td_task_id d ->
  let w1 := snd (Api.delete_task (td_task_id d) w) in
  let w2 := worker_iteration E w1 in
  generation_queue w2 = rest /\
  tasks w2 = tasks w1 /\
  tasks w2 !! td_task_id d = None /\
  db_log w2 = db_log w /\
  generations w2 = generations w1 /\
  is_processing w2 = false.
Proof.
  intros Hq Ht Hid w1 w2.
  destruct (delete_task_found (td_task_id d) w task Ht Hid)
    as (Htasks & Hlog & Hqueue).
  fold w1 in Htasks, Hlog, Hqueue. rewrite Hq in Hqueue.
  assert (Hgone : tasks w1 !! td_task_id d = None)
    by (rewrite Htasks; apply lookup_delete_eq).
  unfold w2. rewrite (worker_iteration_missing w1 d rest Hqueue Hgone).
  cbn. repeat split; assumption.
Qed.

(** X6.  A task is visible as soon as [queue_generation] returns:
    [get_task] on the identifier handed out answers the queued row, with
    progress 0.0, no file path, and the prompt and duration given. *)
Theorem get_task_after_enqueue (isoformat : Z -> string) (prompt : string)
    (duration : float) (model_id : option string)
    (guidance_scale temperature : float)
    (audio_conditioning : option string) (w : World) :
  let r := queue_generation E prompt duration model_id guidance_scale
             temperature audio_conditioning w in
  Api.get_task isoformat (gt_id (fst r)) (snd r)
  = Api.Json
      (Api.mkTaskView (uuid4 E (uuid_draws w)) prompt "queued" 0.0
         (isoformat (clock w)) None duration) /\
  (forall k, k <> gt_id (fst r) ->
     Api.get_task isoformat k (snd r) = Api.get_task isoformat k w).
Proof.
  cbn. unfold Api.get_task. cbn. rewrite lookup_insert_eq. cbn.
  split; [reflexivity|]. intros k Hk.
  rewrite lookup_insert_ne by congruence. reflexivity.
Qed.

End FurtherGeneration.

(** * Further properties of the batch helper *)

Section FurtherBatch.

Variable E : Collaborators.
Variable random : nat -> float.
Variable die : nat -> nat.

Lemma variations_loop_spec (todo k : nat) (base_prompt : string)
    (duration : float) (model_id : option string) (min_temp max_temp : float)
    (task_ids : list string) (w : World) :
  let r := Batch.variations_loop E random todo k base_prompt duration model_id
             min_temp max_temp task_ids w in
  let data :=
    variation_data E random base_prompt duration model_id min_temp max_temp k
      (uuid_draws w) <$> seq 0 todo in
  fst r = (task_ids ++ (td_task_id <$> data))%list /\
  generation_queue (snd r) = (generation_queue w ++ data)%list /\
  uuid_draws (snd r) = uuid_draws w + todo.
Proof.
  revert k task_ids w.
  induction todo as [|todo IH]; intros k task_ids w; cbn -[seq].
  - cbn. rewrite !app_nil_r. repeat split. lia.
  - destruct (IH (S k) (task_ids ++ [uuid4 E (uuid_draws w)])%list
                (snd (queue_generation E base_prompt duration model_id 3.0
                        (Batch.uniform random min_temp max_temp k) None w)))
      as (Hids & Hq & Hd).
    cbn -[seq] in Hids, Hq, Hd.
    assert (Hshift :
      variation_data E random base_prompt duration model_id min_temp max_temp
        k (uuid_draws w) <$> seq 0 (S todo)
      = variation_data E random base_prompt duration model_id min_temp
          max_temp k (uuid_draws w) 0
        :: (variation_data E random base_prompt duration model_id min_temp
              max_temp (S k) (S (uuid_draws w)) <$> seq 0 todo)).
    { cbn [seq fmap list_fmap]. f_equal.
      rewrite <- (fmap_S_seq 0 todo), <- list_fmap_compose.
      apply list_fmap_ext. intros i x _. unfold variation_data. cbn.
      rewrite !Nat.add_succ_r. reflexivity. }
    rewrite Hshift. unfold variation_data at 1 3. rewrite !Nat.add_0_r.
    split; [|split].
    + rewrite Hids, <- app_assoc. reflexivity.
    + rewrite Hq. unfold queue_put. rewrite <- app_assoc. reflexivity.
    + rewrite Hd. lia.
Qed.

(** X7.  [generate_variations] enqueues [num_variations] tasks (none when
    the number is zero or negative), all with the base prompt, the given
    duration and model and the default guidance scale 3.0, each with its
    own temperature drawn by [random.uniform]; it returns their
    identifiers in the order of the queue. *)
Theorem generate_variations_spec (base_prompt : string) (num_variations : Z)
    (duration : float) (model_id : option string)
    (temperature_range : float * float) (k : nat) (w : World) :
  let r := Batch.generate_variations E random base_prompt num_variations
             duration model_id temperature_range k w in
  let data :=
    variation_data E random base_prompt duration model_id
      (fst temperature_range) (snd temperature_range) k (uuid_draws w)
      <$> seq 0 (Z.to_nat num_variations) in
  length (fst r) = Z.to_nat num_variations /\
  fst r = td_task_id <$> data /\
  generation_queue (snd r) = (generation_queue w ++ data)%list /\
  Forall (fun d => td_prompt d = base_prompt /\ td_duration d = duration /\
                   td_model_id d = model_id /\
                   td_guidance_scale d = 3.0%float) data /\
  ((num_variations <= 0)%Z -> r = ([], w)).
Proof.
  unfold Batch.generate_variations.
  destruct (variations_loop_spec (Z.to_nat num_variations) k base_prompt
              duration model_id (fst temperature_range)
              (snd temperature_range) [] w) as (Hids & Hq & _).
  cbn -[seq] in Hids, Hq. cbn zeta.
  split; [rewrite Hids, !length_fmap, length_seq; reflexivity|].
  split; [assumption|]. split; [assumption|]. split.
  - apply Forall_fmap, Forall_forall. intros i _. cbn. repeat split.
  - intros Hle. replace (Z.to_nat num_variations) with 0 by lia. reflexivity.
Qed.

(** X8.  [POST /api/batch/generate] refuses an absent or empty list of
    prompts with status 400 and leaves the service as it was; otherwise it
    enqueues one task per prompt, in order, with the default guidance
    scale and temperature, and answers their identifiers and their
    number. *)
Theorem batch_generate_spec (request : Api.BatchRequest) (w : World) :
  let prompts := default [] (Api.br_prompts request) in
  let data :=
    batch_data E prompts (default 30.0%float (Api.br_duration request))
      (Api.br_model_id request) 3.0 1.0 (uuid_draws w) in
  let r := Api.batch_generate E request w in
  (prompts = [] -> r = (Api.HTTPException 400, w)) /\
  (prompts <> [] ->
     fst r = Api.Json
               (Api.mkBatchReply "queued" (td_task_id <$> data)
                  (length prompts)) /\
     td_prompt <$> data = prompts /\
     generation_queue (snd r) = (generation_queue w ++ data)%list).
Proof.
  cbn zeta. unfold Api.batch_generate.
  destruct (default [] (Api.br_prompts request)) as [|p ps] eqn:Hp.
  - split; [reflexivity | contradiction].
  - split; [discriminate|]. intros _.
    destruct (sequential_loop_spec E (p :: ps)
                (default 30.0%float (Api.br_duration request))
                (Api.br_model_id request) 3.0%float 1.0%float [] w)
      as (Hids & Hq & _).
    unfold Batch.generate_batch. cbn [Z.eqb Pos.eqb].
    cbn zeta in Hids, Hq. rewrite app_nil_l in Hids.
    cbn [fst snd]. rewrite Hids, Hq.
    split; [|split; [apply batch_data_prompts | reflexivity]].
    do 2 f_equal.
    rewrite length_fmap, <- (length_fmap td_prompt), batch_data_prompts.
    reflexivity.
Qed.

(** X9.  [POST /api/batch/variations] refuses an absent or empty prompt
    with status 400 and leaves the service as it was; with a prompt it
    enqueues the variations (five by default) and answers their number. *)
Theorem generate_variations_endpoint_spec (request : Api.BatchRequest)
    (k : nat) (w : World) :
  let r := Api.generate_variations E random request k w in
  let n := Z.to_nat (default 5%Z (Api.br_num_variations request)) in
  (Api.br_prompt request = None \/ Api.br_prompt request = Some "" ->
     r = (Api.HTTPException 400, w)) /\
  (forall prompt, Api.br_prompt request = Some prompt -> prompt <> "" ->
     exists ids,
       fst r = Api.Json (Api.mkBatchReply "queued" ids n) /\
       length ids = n /\
       length (generation_queue (snd r)) = length (generation_queue w) + n /\
       uuid_draws (snd r) = uuid_draws w + n).
Proof.
  cbn zeta. unfold Api.generate_variations. split.
  - intros [-> | ->]; reflexivity.
  - intros prompt -> Hne.
    destruct (String.eqb prompt "") eqn:Heq;
      [apply String.eqb_eq in Heq; contradiction|].
    unfold Batch.generate_variations. cbn [fst snd].
    destruct (variations_loop_spec
                (Z.to_nat (default 5%Z (Api.br_num_variations request))) k
                prompt (default 30.0%float (Api.br_duration request))
                (Api.br_model_id request) 0.8%float 1.2%float [] w)
      as (Hids & Hq & Hd).
    cbn -[seq] in Hids, Hq, Hd.
    assert (Hlen : length
              (fst (Batch.variations_loop E random
                      (Z.to_nat (default 5%Z (Api.br_num_variations request)))
                      k prompt (default 30.0%float (Api.br_duration request))
                      (Api.br_model_id request) 0.8%float 1.2%float [] w))
            = Z.to_nat (default 5%Z (Api.br_num_variations request)))
      by (rewrite Hids, !length_fmap, length_seq; reflexivity).
    eexists. rewrite Hlen.
    split; [reflexivity|]. split; [assumption|]. split.
    + rewrite Hq, length_app, length_fmap, length_seq. reflexivity.
    + exact Hd.
Qed.

(** [random.choice] answers an element of its argument. *)
Lemma choice_in {A : Type} (default : A) (seq : list A) (k : nat) :
  seq <> [] -> Batch.choice die default seq k ∈ seq.
Proof.
  intros Hne. unfold Batch.choice. apply list_elem_of_In, nth_In.
  apply Nat.mod_upper_bound. destruct seq; [contradiction | discriminate].
Qed.

Lemma theme_prompts_loop_spec (todo k : nat) (theme : string)
    (prompts : list string) :
  let r := Batch.theme_prompts_loop die todo k theme prompts in
  length r = length prompts + todo /\
  (Forall (themed theme) prompts -> Forall (themed theme) r).
Proof.
  revert k prompts.
  induction todo as [|todo IH]; intros k prompts; cbn [Batch.theme_prompts_loop].
  - split; [lia | tauto].
  - destruct (IH (S (S k))
                (prompts ++
                 [(Batch.choice die "" (Batch.variations theme) k ++ " " ++
                   Batch.choice die "" Batch.elements (S k) ++ ".")%string])%list)
      as [Hlen Hall].
    cbn zeta in Hlen, Hall. split.
    + rewrite Hlen, length_app. cbn. lia.
    + intros Hp. apply Hall. apply Forall_app. split; [assumption|].
      apply Forall_singleton.
      exists (Batch.choice die "" (Batch.variations theme) k),
             (Batch.choice die "" Batch.elements (S k)).
      split; [apply choice_in; discriminate|].
      split; [apply choice_in; discriminate | reflexivity].
Qed.

(** X10.  [generate_playlist] enqueues [num_tracks] tasks (none when the
    number is zero or negative), whatever the generator draws.  Each
    prompt is one of the ten openings for the theme, a space, one of the
    ten elements and a full stop; the tasks are queued in the order the
    prompts were drawn, with the default guidance scale and temperature. *)
Theorem generate_playlist_spec (theme : string) (num_tracks : Z)
    (duration : float) (model_id : option string) (k : nat) (w : World) :
  let prompts := Batch._generate_theme_prompts die theme num_tracks k in
  let data := batch_data E prompts duration model_id 3.0 1.0 (uuid_draws w) in
  let r := Batch.generate_playlist E die theme num_tracks duration model_id
             k w in
  length prompts = Z.to_nat num_tracks /\
  Forall (themed theme) prompts /\
  length (fst r) = Z.to_nat num_tracks /\
  fst r = td_task_id <$> data /\
  td_prompt <$> data = prompts /\
  generation_queue (snd r) = (generation_queue w ++ data)%list.
Proof.
  cbn zeta. unfold Batch.generate_playlist, Batch._generate_theme_prompts.
  destruct (theme_prompts_loop_spec (Z.to_nat num_tracks) k theme [])
    as [Hlen Hall].
  cbn zeta in Hlen, Hall. cbn [length Nat.add] in Hlen.
  destruct (sequential_loop_spec E
              (Batch.theme_prompts_loop die (Z.to_nat num_tracks) k theme [])
              duration model_id 3.0%float 1.0%float [] w)
    as (Hids & Hq & _).
  cbn zeta in Hids, Hq. rewrite app_nil_l in Hids.
  unfold Batch.generate_batch. cbn [Z.eqb Pos.eqb].
  split; [assumption|]. split; [apply Hall; constructor|].
  split.
  { rewrite Hids, length_fmap, <- (length_fmap td_prompt),
      batch_data_prompts. assumption. }
  split; [assumption|]. split; [apply batch_data_prompts | assumption].
Qed.

End FurtherBatch.

(** *** The further properties on the concrete service *)

Lemma keyed_init (m : option GenParams) (now : Z) : keyed (init m now).
Proof. intros k r Hr. cbn in Hr. rewrite lookup_empty in Hr. discriminate. Qed.

Lemma keyed_queue_generation (E : Collaborators) (prompt : string)
    (duration : float) (model_id : option string)
    (guidance_scale temperature : float)
    (audio_conditioning : option string) (w : World) :
  keyed w ->
  keyed (snd (queue_generation E prompt duration model_id guidance_scale
                temperature audio_conditioning w)).
Proof.
  intros Hk k r Hr. cbn in Hr.
  destruct (decide (uuid4 E (uuid_draws w) = k)) as [<-|Hne].
  - rewrite lookup_insert_eq in Hr. injection Hr as <-. reflexivity.
  - rewrite lookup_insert_ne in Hr by assumption. apply Hk. assumption.
Qed.

Lemma demo_two_queued_keyed : keyed demo_two_queued.
Proof.
  unfold demo_two_queued. apply keyed_queue_generation.
  apply keyed_queue_generation. apply keyed_init.
Qed.

(** X1 on the concrete service with two tasks queued. *)
Lemma worker_drains_queue_witness :
  keyed demo_two_queued /\
  let w' := worker demo (length (generation_queue demo_two_queued))
              demo_two_queued in
  generation_queue w' = [] /\
  (forall d r, d ∈ generation_queue demo_two_queued ->
     tasks demo_two_queued !! td_task_id d = Some r ->
     exists r', tasks w' !! td_task_id d = Some r' /\ terminal r') /\
  (forall n, worker demo n w' = w').
Proof.
  split.
  - exact demo_two_queued_keyed.
  - exact (worker_drains_queue demo demo_two_queued demo_two_queued_keyed).
Defined.

(** X2 on the concrete service, for a history with two turns. *)
Lemma rows_at_rest_witness :
  (forall i j, uuid4 demo i = uuid4 demo j -> i = j) /\
  let w :=
    tr_world
      (run demo
         [Enqueue "noise" 30.0 None 3.0 1.0 None;
          Enqueue "piano" 30.0 None 3.0 1.0 None;
          WorkerTurn; WorkerTurn]
         demo_init) in
  forall k r, tasks w !! k = Some r -> gt_id r = k /\ row_ok w r.
Proof.
  split.
  - exact demo_uuid4_inj.
  - exact (rows_at_rest demo _ _ _ demo_uuid4_inj).
Defined.

(** X3 on the concrete service, had the base model failed to load. *)
Lemma no_model_fails_every_task_witness :
  ((fun _ : string => false) model_name = false /\ keyed demo_two_queued) /\
  let w := load_model (fun _ => false) (fun _ => false) None demo_two_queued in
  let w' := worker demo (length (generation_queue w)) w in
  model w = None /\
  model w' = None /\
  generation_queue w' = [] /\
  generations w' = generations demo_two_queued /\
  (forall d r, d ∈ generation_queue demo_two_queued ->
     tasks demo_two_queued !! td_task_id d = Some r ->
     exists r', tasks w' !! td_task_id d = Some r' /\
       gt_status r' = "failed" /\ gt_progress r' = 0.0%float).
Proof.
  split.
  - split; [reflexivity | exact demo_two_queued_keyed].
  - exact (no_model_fails_every_task demo (fun _ => false) (fun _ => false)
             demo_two_queued eq_refl demo_two_queued_keyed).
Defined.

Example no_model_demo :
  let w := load_model (fun _ => false) (fun _ => false) None demo_two_queued in
  gt_status <$> (tasks (worker demo 2 w) !! "task-1") = Some "failed".
Proof. vm_compute. reflexivity. Qed.


Example delete_task_demo :
  generations demo_processed = ["generations/generation_task-1.wav"] /\
  generations (snd (Api.delete_task "task-1" demo_processed)) = [].
Proof. vm_compute. split; reflexivity. Qed.

(** X5 on the concrete service: the first task is deleted while queued. *)
Lemma deleted_task_is_skipped_witness :
  (generation_queue demo_two_queued = demo_noise_data :: [demo_piano_data] /\
   tasks demo_two_queued !! td_task_id demo_noise_data = Some demo_noise_row /\
   gt_id demo_noise_row = td_task_id demo_noise_data) /\
  let w1 := snd (Api.delete_task (td_task_id demo_noise_data) demo_two_queued) in
  let w2 := worker_iteration demo w1 in
  generation_queue w2 = [demo_piano_data] /\
  tasks w2 = tasks w1 /\
  tasks w2 !! td_task_id demo_noise_data = None /\
  db_log w2 = db_log demo_two_queued /\
  generations w2 = generations w1 /\
  is_processing w2 = false.
Proof.
  assert (H1 : tasks demo_two_queued !! td_task_id demo_noise_data
               = Some demo_noise_row) by (vm_compute; reflexivity).
  split.
  - split; [reflexivity | split; [exact H1 | reflexivity]].
  - exact (deleted_task_is_skipped demo demo_two_queued demo_noise_data
             [demo_piano_data] demo_noise_row eq_refl H1 eq_refl).
Defined.

Example generate_variations_demo :
  let r := Batch.generate_variations demo demo_random "piano" 3 30.0 None
             (0.8, 1.2)%float 0 demo_init in
  fst r = ["task-0"; "task-1"; "task-2"] /\
  td_temperature <$> generation_queue (snd r) = [0.8; 1.0; 1.0]%float.
Proof. vm_compute. split; reflexivity. Qed.

Example generate_playlist_demo :
  Batch._generate_theme_prompts demo_die "jazz" 2 0
  = ["A dark jazz piece with heavy bass.";
     "An atmospheric jazz soundscape with strings."].
Proof. vm_compute. reflexivity. Qed.

(** * Properties of the training controller *)

Import Training.

Section DatasetProperties.

Variable stops : nat -> bool.

(** C8.  With no [*.wav] and no [*.mp3] entry in the dataset directory,
    [process_dataset] ends with status [failed], the message that no audio
    files were found, progress 0.0, and [metadata.json] as it was. *)
Theorem process_dataset_no_input (w : Training.World) :
  audio_files w = [] ->
  let w' := process_dataset stops w in
  ts_status (training_status w') = "failed" /\
  ts_message (training_status w')
    = "No audio files found in dataset directory" /\
  ts_progress (training_status w') = 0.0%float /\
  metadata w' = metadata w /\
  is_training w' = is_training w.
Proof.
  intros Hfiles. unfold process_dataset.
  change (audio_files (process_dataset_enter w)) with (audio_files w).
  rewrite Hfiles. cbn. repeat split.
Qed.



End DatasetProperties.

Section ControllerProperties.

Variable uuid4 : nat -> string.
Variable strftime : Z -> string.


(** With the stop flag set the epoch loop ends at once. *)
Lemma epoch_loop_stopped (stops : nat -> bool) (epochs : Z) (todo epoch : nat)
    (w : Training.World) :
  should_stop w = true -> epoch_loop stops epochs todo epoch w = w.
Proof.
  intros Hstop. destruct todo; cbn; [reflexivity|].
  rewrite Hstop. reflexivity.
Qed.

(** What the epoch loop leaves untouched, and where it ends when a stop
    request is first served during epoch [k]. *)
Lemma epoch_loop_first_stop (stops : nat -> bool) (epochs : Z)
    (todo epoch : nat) (w : Training.World) (k : nat) :
  should_stop w = false ->
  epoch < k <= epoch + todo ->
  stops k = true ->
  (forall j, epoch < j < k -> stops j = false) ->
  let w' := epoch_loop stops epochs todo epoch w in
  ts_epoch (training_status w') = Z.of_nat k /\
  ts_status (training_status w') = ts_status (training_status w) /\
  ts_total_epochs (training_status w')
    = ts_total_epochs (training_status w) /\
  should_stop w' = true /\
  is_training w' = is_training w /\
  model_checkpoints w' = model_checkpoints w /\
  Training.uuid_draws w' = Training.uuid_draws w /\
  Training.clock w' = Training.clock w.
Proof.
  revert epoch w.
  induction todo as [|todo IH]; intros epoch w Hstop Hk Hat Hbefore;
    [lia|].
  cbn [epoch_loop]. rewrite Hstop. unfold interference.
  destruct (decide (S epoch = k)) as [<-|Hne].
  - rewrite Hat. rewrite epoch_loop_stopped by reflexivity.
    cbn. repeat split. lia.
  - rewrite (Hbefore (S epoch)) by lia.
    destruct (IH (S epoch)
                (set_message
                   ("Training epoch " ++ pretty (Z.of_nat epoch + 1)%Z ++ "/"
                    ++ pretty epochs)
                   (set_progress
                      (float_of_Z (Z.of_nat epoch + 1) / float_of_Z epochs)
                      (set_epoch (Z.of_nat epoch + 1) w))))
      as (He & Hs & Ht & Hst & Hi & Hm & Hu & Hc);
      [exact Hstop | lia | exact Hat | intros j Hj; apply Hbefore; lia |].
    repeat split; assumption.
Qed.

(** C6.  In a run that reaches its epoch loop, let the first stop request
    be served during unit [k] (epoch [k], or the set-up for [k = 0]).  The
    epoch in progress is finished, no later epoch is started, and the run
    ends as a success: the checkpoint row is persisted under a fresh
    identifier with a name carrying the time, the status is [completed] and
    the in-progress flag is cleared. *)
Theorem stop_ends_run_as_success (epochs : Z) (learning_rate : float)
    (batch_size : Z) (stops : nat -> bool) (w : Training.World) (k : nat) :
  is_training w = false ->
  pretrained_error w = None ->
  is_Some (metadata w) ->
  stops k = true ->
  (forall j, j < k -> stops j = false) ->
  (Z.of_nat k <= epochs)%Z ->
  let w' := start_training uuid4 strftime epochs learning_rate batch_size
              stops w in
  let checkpoint_id := uuid4 (Training.uuid_draws w) in
  ts_epoch (training_status w') = Z.of_nat k /\
  ts_total_epochs (training_status w') = epochs /\
  ts_status (training_status w') = "completed" /\
  ts_progress (training_status w') = 1.0%float /\
  is_training w' = false /\
  model_checkpoints w' !! checkpoint_id
    = Some (mkModelCheckpoint checkpoint_id
              ("Fine-tuned Model " ++ strftime (Training.clock w))
              (Some ("Trained for " ++ pretty epochs ++ " epochs"))
              ("models/checkpoint_" ++ checkpoint_id) false
              (Some (Training.clock w))).
Proof.
  intros Hflag Hload [dataset Hmeta] Hat Hbefore Hle.
  unfold start_training. rewrite Hflag. cbn [pretrained_error set_message
    set_total_epochs set_epoch set_progress Training.set_status with_status
    with_should_stop with_is_training training_status]. rewrite Hload.
  unfold interference.
  destruct k as [|k].
  - rewrite Hat. cbn -[epoch_loop pretty String.append]. rewrite Hmeta.
    rewrite epoch_loop_stopped by reflexivity.
    cbn. repeat split. apply lookup_insert_eq.
  - rewrite (Hbefore 0) by lia. cbn -[epoch_loop pretty String.append].
    rewrite Hmeta.
    match goal with
    | |- context [epoch_loop stops epochs ?todo 0 ?w0] =>
        destruct (epoch_loop_first_stop stops epochs todo 0 w0 (S k))
          as (He & Hs & Ht & Hst & Hi & Hm & Hu & Hc);
          [reflexivity | lia | exact Hat | intros j Hj; apply Hbefore; lia |];
          cbn in He, Hs, Ht, Hst, Hi, Hm, Hu, Hc;
          unfold save_final_checkpoint;
          remember (epoch_loop stops epochs todo 0 w0) as w1 eqn:Hw1
    end.
    cbn. rewrite He, Ht, Hu, Hc. repeat split. apply lookup_insert_eq.
Qed.

End ControllerProperties.

Example demo_dataset_ready_manifest :
  metadata demo_dataset_ready
    = Some [("dataset/a.wav", "Music track from a");
            ("dataset/b.mp3", "Music track from b")] /\
  ts_status (training_status demo_dataset_ready) = "idle" /\
  ts_message (training_status demo_dataset_ready)
    = "Dataset processed: 2 chunks".
Proof. vm_compute. repeat split. Qed.

(** C8 on the concrete directory without audio. *)
Lemma process_dataset_no_input_witness :
  audio_files demo_no_audio = [] /\
  let w' := process_dataset (fun _ => false) demo_no_audio in
  ts_status (training_status w') = "failed" /\
  ts_message (training_status w')
    = "No audio files found in dataset directory" /\
  ts_progress (training_status w') = 0.0%float /\
  metadata w' = metadata demo_no_audio /\
  is_training w' = is_training demo_no_audio.
Proof.
  split.
  - reflexivity.
  - apply (process_dataset_no_input (fun _ => false) demo_no_audio).
    reflexivity.
Defined.




(** C6 on the concrete controller: five epochs asked, a stop request served
    during the second one. *)
Lemma stop_ends_run_as_success_witness :
  (is_training demo_dataset_ready = false /\
   pretrained_error demo_dataset_ready = None /\
   is_Some (metadata demo_dataset_ready) /\
   stop_in_second_epoch 2 = true /\
   (forall j, j < 2 -> stop_in_second_epoch j = false) /\
   (Z.of_nat 2 <= 5)%Z) /\
  let w' := start_training demo_uuid4 demo_strftime 5 0.0001 4
              stop_in_second_epoch demo_dataset_ready in
  let checkpoint_id := demo_uuid4 (Training.uuid_draws demo_dataset_ready) in
  ts_epoch (training_status w') = Z.of_nat 2 /\
  ts_total_epochs (training_status w') = 5%Z /\
  ts_status (training_status w') = "completed" /\
  ts_progress (training_status w') = 1.0%float /\
  is_training w' = false /\
  model_checkpoints w' !! checkpoint_id
    = Some (mkModelCheckpoint checkpoint_id
              ("Fine-tuned Model " ++ demo_strftime (Training.clock demo_dataset_ready))
              (Some ("Trained for " ++ pretty 5%Z ++ " epochs"))
              ("models/checkpoint_" ++ checkpoint_id) false
              (Some (Training.clock demo_dataset_ready))).
Proof.
  assert (H1 : is_Some (metadata demo_dataset_ready))
    by (vm_compute; eexists; reflexivity).
  assert (H2 : forall j, j < 2 -> stop_in_second_epoch j = false).
  { intros j Hj. destruct j as [|[|j]]; [reflexivity | reflexivity | lia]. }
  assert (H3 : (Z.of_nat 2 <= 5)%Z) by lia.
  split.
  - repeat split; try assumption.
  - exact (stop_ends_run_as_success demo_uuid4 demo_strftime 5 0.0001 4
             stop_in_second_epoch demo_dataset_ready 2 eq_refl eq_refl H1
             eq_refl H2 H3).
Defined.

Example stop_in_second_epoch_run :
  let w' := start_training demo_uuid4 demo_strftime 5 0.0001 4
              stop_in_second_epoch demo_dataset_ready in
  training_status w'
    = mkTrainingStatus "completed" 1.0 2 5 None
        "Training completed successfully" /\
  checkpoint_dirs w' = ["models/checkpoint_task-0"] /\
  should_stop w' = true.
Proof. vm_compute. repeat split. Qed.

(** * Further properties of the training controller *)

Section FurtherDataset.

Variable stops : nat -> bool.

(** The per-file loop adds the entries of the files it reaches, in order,
    and touches nothing of the service but the progress, the message and,
    through stop requests, the stop flag. *)
Lemma process_files_spec (total : nat) (files : list string) (i : nat)
    (processed_files : list (string * string)) (w : Training.World) :
  let r := process_files stops total files i processed_files w in
  exists j, j <= length files /\
    fst r = (processed_files ++ (manifest_entry <$> take j files))%list /\
    (j < length files -> should_stop (snd r) = true) /\
    (should_stop w = false -> (forall k, stops k = false) ->
       j = length files /\ should_stop (snd r) = false) /\
    (should_stop w = true -> should_stop (snd r) = true) /\
    is_training (snd r) = is_training w /\
    metadata (snd r) = metadata w /\
    dataset_dir (snd r) = dataset_dir w /\
    model_checkpoints (snd r) = model_checkpoints w /\
    Training.uuid_draws (snd r) = Training.uuid_draws w /\
    ts_status (training_status (snd r)) = ts_status (training_status w).
Proof.
  revert i processed_files w.
  induction files as [|f rest IH]; intros i processed_files w;
    cbn [process_files].
  - exists 0. cbn. rewrite app_nil_r. repeat split; try lia; tauto.
  - destruct (should_stop w) eqn:Hstop.
    + exists 0. cbn. rewrite app_nil_r.
      repeat split; try lia; try tauto; try discriminate.
    + match goal with
      | |- context [process_files stops total rest (S i) ?p ?w0] =>
          destruct (IH (S i) p w0)
            as (j & Hj & Hfst & Hlt & Hfull & Hkeep & Hi & Hm & Hd & Hc & Hu
                & Hs)
      end.
      exists (S j). cbn [length take fmap list_fmap].
      split; [lia|]. split.
      { rewrite Hfst. unfold _slice_audio. cbn [List.map].
        rewrite <- app_assoc. reflexivity. }
      split; [intros Hlt'; apply Hlt; lia|].
      split.
      { intros _ Hnone.
        assert (Hquiet : should_stop
                  (interference stops (S i)
                     (set_message
                        ("Processed " ++ pretty (i + 1)%nat ++ "/" ++
                         pretty total ++ " files")
                        (set_progress
                           (float_of_nat (i + 1) / float_of_nat total * 0.5)
                           w))) = false)
          by (unfold interference; rewrite Hnone; exact Hstop).
        destruct (Hfull Hquiet Hnone) as [Hjeq Hfalse].
        split; [rewrite Hjeq; reflexivity | assumption]. }
      split; [discriminate|].
      unfold interference in Hi, Hm, Hd, Hc, Hu, Hs |- *.
      destruct (stops (S i)); cbn in Hi, Hm, Hd, Hc, Hu, Hs;
        repeat split; assumption.
Qed.

(** X11.  Whatever stop requests arrive, [process_dataset] on a directory
    with audio files writes as manifest a prefix of the manifest of an
    undisturbed run (the entries of the files reached before the stop, in
    the order [*.wav] then [*.mp3]) and reports status [idle] with
    progress 1.0 even when it was cut short; without a pending or arriving
    stop request the manifest is complete, one entry per audio file. *)
Theorem process_dataset_manifest (w : Training.World) :
  audio_files w <> [] ->
  let w' := process_dataset stops w in
  exists j, j <= length (audio_files w) /\
    metadata w' = Some (take j (full_manifest w)) /\
    ts_status (training_status w') = "idle" /\
    ts_progress (training_status w') = 1.0%float /\
    ts_message (training_status w')
      = "Dataset processed: " ++ pretty j ++ " chunks" /\
    (j < length (audio_files w) -> should_stop w' = true) /\
    (should_stop w = false -> (forall k, stops k = false) ->
       j = length (audio_files w) /\ metadata w' = Some (full_manifest w)).
Proof.
  intros Hfiles. unfold process_dataset.
  change (audio_files (process_dataset_enter w)) with (audio_files w).
  destruct (audio_files w) as [|f rest] eqn:Hf; [contradiction|].
  destruct (process_files_spec (length (f :: rest)) (f :: rest) 0 []
              (process_dataset_enter w))
    as (j & Hj & Hfst & Hlt & Hfull & _).
  cbn zeta in Hfst, Hlt, Hfull. rewrite app_nil_l in Hfst.
  exists j. cbn zeta. rewrite Hfst. unfold full_manifest. rewrite Hf.
  split; [assumption|]. cbn -[take pretty process_files].
  split; [rewrite fmap_take; reflexivity|].
  split; [reflexivity|]. split; [reflexivity|].
  split.
  { rewrite length_fmap, length_take. replace (j `min` length (f :: rest))
      with j by lia. reflexivity. }
  split; [assumption|].
  intros Hstop Hnone. destruct (Hfull Hstop Hnone) as [-> _].
  split; [reflexivity|]. rewrite firstn_all. reflexivity.
Qed.


End FurtherDataset.

Section FurtherController.

Variable uuid4 : nat -> string.
Variable strftime : Z -> string.

(** What the epoch loop never touches, whatever stop requests arrive. *)
Lemma epoch_loop_frame (stops : nat -> bool) (epochs : Z) (todo epoch : nat)
    (w : Training.World) :
  let w' := epoch_loop stops epochs todo epoch w in
  ts_status (training_status w') = ts_status (training_status w) /\
  ts_total_epochs (training_status w')
    = ts_total_epochs (training_status w) /\
  is_training w' = is_training w /\
  metadata w' = metadata w /\
  model_checkpoints w' = model_checkpoints w /\
  Training.uuid_draws w' = Training.uuid_draws w /\
  Training.clock w' = Training.clock w.
Proof.
  revert epoch w.
  induction todo as [|todo IH]; intros epoch w; cbn [epoch_loop].
  - repeat split.
  - destruct (should_stop w); [repeat split|].
    match goal with
    | |- context [epoch_loop stops epochs todo (S epoch) ?w0] =>
        destruct (IH (S epoch) w0) as (Hs & Ht & Hi & Hm & Hc & Hu & Hk)
    end.
    unfold interference in Hs, Ht, Hi, Hm, Hc, Hu, Hk |- *.
    destruct (stops (S epoch)); cbn in Hs, Ht, Hi, Hm, Hc, Hu, Hk;
      repeat split; assumption.
Qed.

(** The epoch loop when no stop request arrives: every epoch is run. *)
Lemma epoch_loop_undisturbed (stops : nat -> bool) (epochs : Z)
    (todo epoch : nat) (w : Training.World) :
  should_stop w = false ->
  (forall k, stops k = false) ->
  let w' := epoch_loop stops epochs todo epoch w in
  should_stop w' = false /\
  ts_epoch (training_status w')
    = match todo with
      | O => ts_epoch (training_status w)
      | S _ => Z.of_nat (epoch + todo)
      end.
Proof.
  intros Hstop Hnone. revert epoch w Hstop.
  induction todo as [|todo IH]; intros epoch w Hstop; cbn [epoch_loop].
  - split; [assumption | reflexivity].
  - rewrite Hstop. unfold interference. rewrite Hnone.
    match goal with
    | |- context [epoch_loop stops epochs todo (S epoch) ?w0] =>
        destruct (IH (S epoch) w0 Hstop) as [Hs He]
    end.
    split; [assumption|]. rewrite He.
    destruct todo as [|todo']; cbn; lia.
Qed.

(** X13.  A run during which no stop request arrives goes through all its
    epochs and ends completed with its checkpoint saved, even if a stop
    had been requested before it started: [start_training] discards the
    earlier request.  With zero or a negative number of epochs it runs no
    epoch and still ends completed with a checkpoint. *)
Theorem undisturbed_run_completes (epochs : Z) (learning_rate : float)
    (batch_size : Z) (stops : nat -> bool) (w : Training.World) :
  is_training w = false ->
  pretrained_error w = None ->
  is_Some (metadata w) ->
  (forall k, stops k = false) ->
  let w' := start_training uuid4 strftime epochs learning_rate batch_size
              stops w in
  ts_epoch (training_status w') = Z.max 0 epochs /\
  ts_total_epochs (training_status w') = epochs /\
  ts_status (training_status w') = "completed" /\
  ts_progress (training_status w') = 1.0%float /\
  ts_message (training_status w') = "Training completed successfully" /\
  is_training w' = false /\
  should_stop w' = false /\
  is_Some (model_checkpoints w' !! uuid4 (Training.uuid_draws w)).
Proof.
  intros Hflag Hload [dataset Hmeta] Hnone.
  unfold start_training. rewrite Hflag.
  cbn -[epoch_loop pretty String.append]. rewrite Hload.
  unfold interference. rewrite Hnone.
  cbn -[epoch_loop pretty String.append]. rewrite Hmeta.
  match goal with
  | |- context [epoch_loop stops epochs ?todo 0 ?w0] =>
      destruct (epoch_loop_undisturbed stops epochs todo 0 w0 eq_refl Hnone)
        as [Hs He];
      destruct (epoch_loop_frame stops epochs todo 0 w0)
        as (_ & Ht & _ & _ & _ & Hu & _);
      cbn -[epoch_loop] in He, Ht, Hu;
      remember (epoch_loop stops epochs todo 0 w0) as w1 eqn:Hw1
  end.
  unfold save_final_checkpoint. cbn. rewrite Ht, Hu.
  split.
  { rewrite He. destruct (Z.to_nat epochs) eqn:Hn; lia. }
  repeat split; try assumption.
  rewrite lookup_insert_eq. eexists. reflexivity.
Qed.

(** How a run started with the in-progress flag clear ends. *)
Lemma start_training_outcome (epochs : Z) (learning_rate : float)
    (batch_size : Z) (stops : nat -> bool) (w : Training.World) :
  is_training w = false ->
  let w' := start_training uuid4 strftime epochs learning_rate batch_size
              stops w in
  is_training w' = false /\
  ((ts_status (training_status w') = "completed" /\
    is_Some (metadata w) /\ pretrained_error w = None /\
    Training.uuid_draws w' = S (Training.uuid_draws w) /\
    exists c, model_checkpoints w'
              = <[uuid4 (Training.uuid_draws w) := c]> (model_checkpoints w))
   \/
   (ts_status (training_status w') = "failed" /\
    (metadata w = None \/ is_Some (pretrained_error w)) /\
    Training.uuid_draws w' = Training.uuid_draws w /\
    model_checkpoints w' = model_checkpoints w)).
Proof.
  intros Hflag. unfold start_training. rewrite Hflag.
  cbn -[epoch_loop pretty String.append].
  destruct (pretrained_error w) as [e|] eqn:Hload.
  - cbn. split; [reflexivity|]. right. repeat split. right. eauto.
  - unfold interference.
    destruct (stops 0); cbn -[epoch_loop pretty String.append];
      (destruct (metadata w) as [dataset|] eqn:Hmeta;
       [|cbn; split; [reflexivity|]; right; repeat split; left;
         reflexivity]);
      match goal with
      | |- context [epoch_loop stops epochs ?todo 0 ?w0] =>
          destruct (epoch_loop_frame stops epochs todo 0 w0)
            as (_ & _ & _ & _ & Hc & Hu & _);
          cbn -[epoch_loop] in Hc, Hu;
          remember (epoch_loop stops epochs todo 0 w0) as w1 eqn:Hw1
      end;
      unfold save_final_checkpoint; cbn; rewrite Hc, Hu;
      (split; [reflexivity|]); left;
      (split; [reflexivity|]); (split; [eauto|]);
      (split; [reflexivity|]); (split; [reflexivity|]);
      eexists; reflexivity.
Qed.

(** X14.  Every run started with the in-progress flag clear ends with the
    flag clear and the status either [completed], with exactly one
    checkpoint row added under a fresh identifier, or [failed] (the
    manifest is missing or the base model does not load), with the
    checkpoints untouched; so the next start request is accepted. *)
Theorem every_run_releases_the_flag (epochs : Z) (learning_rate : float)
    (batch_size : Z) (stops : nat -> bool) (w : Training.World) :
  is_training w = false ->
  let w' := start_training uuid4 strftime epochs learning_rate batch_size
              stops w in
  is_training w' = false /\
  ((ts_status (training_status w') = "completed" /\
    is_Some (metadata w) /\ pretrained_error w = None /\
    Training.uuid_draws w' = S (Training.uuid_draws w) /\
    exists c, model_checkpoints w'
              = <[uuid4 (Training.uuid_draws w) := c]> (model_checkpoints w))
   \/
   (ts_status (training_status w') = "failed" /\
    (metadata w = None \/ is_Some (pretrained_error w)) /\
    Training.uuid_draws w' = Training.uuid_draws w /\
    model_checkpoints w' = model_checkpoints w)) /\
  (forall epochs' learning_rate' batch_size' stops',
     fst (start_training_endpoint uuid4 strftime epochs' learning_rate'
            batch_size' stops' w')
     = Ok "started" "Training started").
Proof.
  intros Hflag.
  destruct (start_training_outcome epochs learning_rate batch_size stops w
              Hflag) as [Hclear Hcases].
  cbn zeta in Hclear, Hcases |- *.
  split; [exact Hclear|]. split; [exact Hcases|].
  intros epochs' learning_rate' batch_size' stops'.
  unfold start_training_endpoint, training_in_progress.
  rewrite Hclear. reflexivity.
Qed.

(** [process_dataset] does not change whether the base model loads. *)
Lemma process_files_pretrained (stops : nat -> bool) (total : nat)
    (files : list string) (i : nat)
    (processed_files : list (string * string)) (w : Training.World) :
  pretrained_error
    (snd (process_files stops total files i processed_files w))
  = pretrained_error w.
Proof.
  revert i processed_files w.
  induction files as [|f rest IH]; intros i processed_files w;
    cbn [process_files]; [reflexivity|].
  destruct (should_stop w); [reflexivity|].
  rewrite IH. unfold interference. destruct (stops (S i)); reflexivity.
Qed.

(** X15.  After a [process_dataset] run on a directory with audio files,
    cut short by a stop request or not, the manifest exists: a training
    started next with a base model that loads never fails for a missing
    dataset and ends completed, whatever its own stop requests, even when
    the manifest has no entry. *)
Theorem dataset_then_training (dataset_stops stops : nat -> bool)
    (epochs : Z) (learning_rate : float) (batch_size : Z)
    (w : Training.World) :
  audio_files w <> [] ->
  is_training w = false ->
  pretrained_error w = None ->
  let w1 := process_dataset dataset_stops w in
  let w2 := start_training uuid4 strftime epochs learning_rate batch_size
              stops w1 in
  is_Some (metadata w1) /\
  ts_status (training_status w2) = "completed" /\
  is_training w2 = false /\
  Training.uuid_draws w2 = S (Training.uuid_draws w).
Proof.
  intros Hfiles Hflag Hload w1 w2.
  assert (Hw1 : is_Some (metadata w1) /\ is_training w1 = false /\
                pretrained_error w1 = None /\
                Training.uuid_draws w1 = Training.uuid_draws w).
  { unfold w1, process_dataset.
    change (audio_files (process_dataset_enter w)) with (audio_files w).
    destruct (audio_files w) as [|f rest] eqn:Hf; [contradiction|].
    destruct (process_files_spec dataset_stops (length (f :: rest))
                (f :: rest) 0 [] (process_dataset_enter w))
      as (j & _ & _ & _ & _ & _ & Hi & _ & _ & _ & Hu & _).
    cbn zeta in Hi, Hu.
    pose proof (process_files_pretrained dataset_stops (length (f :: rest))
                  (f :: rest) 0 [] (process_dataset_enter w)) as Hp.
    remember (process_files dataset_stops (length (f :: rest)) (f :: rest) 0
                [] (process_dataset_enter w)) as r eqn:Hr.
    cbn in Hi, Hu, Hp |- *.
    split; [eexists; reflexivity|]. split; [rewrite Hi; exact Hflag|].
    split; [rewrite Hp; exact Hload | exact Hu]. }
  destruct Hw1 as (Hmeta & Hflag1 & Hload1 & Hdraws).
  split; [exact Hmeta|].
  destruct (start_training_outcome epochs learning_rate batch_size stops w1
              Hflag1) as [Hclear [(Hs & _ & _ & Hu & _) | (_ & Hwhy & _)]].
  - fold w2 in Hclear, Hs, Hu. rewrite Hu, Hdraws.
    repeat split; assumption.
  - destruct Hwhy as [Hnone | [e He]].
    + rewrite Hnone in Hmeta. destruct Hmeta as [x Hx]. discriminate.
    + rewrite Hload1 in He. discriminate.
Qed.

End FurtherController.

(** *** Paths and captions *)

Lemma rfind_S (c : Ascii.ascii) (s : string) (i : nat) :
  rfind c s (S i) = S <$> rfind c s i.
Proof.
  revert i. induction s as [|a s IH]; intros i; cbn; [reflexivity|].
  rewrite (IH (S i)).
  destruct (rfind c s (S i)); cbn; [reflexivity|].
  destruct (Ascii.eqb a c); reflexivity.
Qed.

Lemma rfind_None (c : Ascii.ascii) (s : string) (i : nat) :
  lacks c s -> rfind c s i = None.
Proof.
  unfold lacks. intros H. induction i as [|i IH]; [assumption|].
  rewrite rfind_S, IH. reflexivity.
Qed.

Lemma rfind_app (c : Ascii.ascii) (s1 s2 : string) (i : nat) :
  rfind c (s1 ++ s2) i
  = match rfind c s2 (i + String.length s1) with
    | Some j => Some j
    | None => rfind c s1 i
    end.
Proof.
  revert i. induction s1 as [|a s1 IH]; intros i.
  - change ("" ++ s2) with s2. cbn. rewrite Nat.add_0_r.
    destruct (rfind c s2 i); reflexivity.
  - change (String a s1 ++ s2) with (String a (s1 ++ s2)).
    cbn [rfind String.length]. rewrite IH, Nat.add_succ_r. cbn.
    destruct (rfind c s2 (S (i + String.length s1))); reflexivity.
Qed.

Lemma string_length_app (s1 s2 : string) :
  String.length (s1 ++ s2) = String.length s1 + String.length s2.
Proof.
  induction s1 as [|a s1 IH]; [reflexivity|].
  change (String a s1 ++ s2) with (String a (s1 ++ s2)).
  cbn [String.length]. rewrite IH. reflexivity.
Qed.

Lemma substring_all (s : string) :
  String.substring 0 (String.length s) s = s.
Proof. induction s as [|a s IH]; cbn; [reflexivity | rewrite IH; reflexivity]. Qed.

Lemma substring_prefix (s1 s2 : string) :
  String.substring 0 (String.length s1) (s1 ++ s2) = s1.
Proof.
  induction s1 as [|a s1 IH].
  - change ("" ++ s2) with s2. destruct s2; reflexivity.
  - change (String a s1 ++ s2) with (String a (s1 ++ s2)).
    cbn [String.length String.substring]. rewrite IH. reflexivity.
Qed.

Lemma substring_skip (s1 s2 : string) (n : nat) :
  String.substring (String.length s1) n (s1 ++ s2) = String.substring 0 n s2.
Proof.
  induction s1 as [|a s1 IH]; [reflexivity|].
  change (String a s1 ++ s2) with (String a (s1 ++ s2)).
  cbn [String.length String.substring]. exact IH.
Qed.

Lemma lacks_app (c : Ascii.ascii) (s1 s2 : string) :
  lacks c s1 -> lacks c s2 -> lacks c (s1 ++ s2).
Proof.
  intros H1 H2. unfold lacks. rewrite rfind_app.
  rewrite (rfind_None c s2 _ H2). exact H1.
Qed.

(** X16.  For a file [base.ext] of the dataset directory, where neither
    part contains a slash, the extension contains no dot and neither is
    empty, the stem of its path is [base] (a dot inside [base] is kept), so
    its caption is "Music track from base" and its manifest entry pairs
    the path [dataset/base.ext] with that caption. *)
Theorem caption_of_audio_file (base ext : string) :
  base <> "" ->
  ext <> "" ->
  lacks (Ascii.ascii_of_nat 47) base ->
  lacks (Ascii.ascii_of_nat 47) ext ->
  lacks (Ascii.ascii_of_nat 46) ext ->
  path_name ("dataset/" ++ base ++ "." ++ ext) = base ++ "." ++ ext /\
  stem ("dataset/" ++ base ++ "." ++ ext) = base /\
  _generate_caption ("dataset/" ++ base ++ "." ++ ext)
    = "Music track from " ++ base /\
  manifest_entry (base ++ "." ++ ext)
    = ("dataset/" ++ base ++ "." ++ ext, "Music track from " ++ base).
Proof.
  intros Hbase Hext Hslash_base Hslash_ext Hdot_ext.
  assert (Hrest : lacks (Ascii.ascii_of_nat 47) (base ++ "." ++ ext)).
  { apply lacks_app; [assumption|].
    apply lacks_app; [reflexivity | assumption]. }
  assert (Hname : path_name ("dataset/" ++ base ++ "." ++ ext)
                  = base ++ "." ++ ext).
  { unfold path_name.
    rewrite (rfind_app _ "dataset/" (base ++ "." ++ ext) 0).
    rewrite (rfind_None _ _ _ Hrest).
    change (rfind (Ascii.ascii_of_nat 47) "dataset/" 0) with (Some 7).
    cbv beta iota.
    rewrite string_length_app.
    change (String.length "dataset/") with 8.
    replace (8 + String.length (base ++ "." ++ ext) - 8)
      with (String.length (base ++ "." ++ ext)) by lia.
    change 8 with (String.length "dataset/").
    rewrite substring_skip. apply substring_all. }
  assert (Hstem : stem ("dataset/" ++ base ++ "." ++ ext) = base).
  { unfold stem. rewrite Hname. cbv zeta.
    rewrite rfind_app.
    assert (Hdot : rfind (Ascii.ascii_of_nat 46) ("." ++ ext)
                     (0 + String.length base)
                   = Some (String.length base)).
    { change ("." ++ ext) with (String (Ascii.ascii_of_nat 46) ext).
      cbn [rfind]. rewrite (rfind_None _ ext _ Hdot_ext). reflexivity. }
    rewrite Hdot.
    rewrite !string_length_app.
    change (String.length ".") with 1.
    assert (Hb : 0 < String.length base)
      by (destruct base; [contradiction | cbn; lia]).
    assert (He : 0 < String.length ext)
      by (destruct ext; [contradiction | cbn; lia]).
    replace ((0 <? String.length base)%nat) with true
      by (symmetry; apply Nat.ltb_lt; assumption).
    replace ((String.length base
              <? String.length base + (1 + String.length ext) - 1)%nat)
      with true by (symmetry; apply Nat.ltb_lt; lia).
    cbv beta iota delta [andb]. apply substring_prefix. }
  split; [exact Hname|]. split; [exact Hstem|].
  unfold manifest_entry, _generate_caption.
  split; [rewrite Hstem; reflexivity|].
  change ("dataset/" ++ (base ++ "." ++ ext))
    with ("dataset/" ++ base ++ "." ++ ext).
  rewrite Hstem. reflexivity.
Qed.

(** *** The further properties on the concrete controller *)

(** X11 on the concrete directory, a stop request arriving during the
    first file. *)
Lemma process_dataset_manifest_witness :
  audio_files demo_training <> [] /\
  let w' := process_dataset (fun k => Nat.eqb k 1) demo_training in
  exists j, j <= length (audio_files demo_training) /\
    metadata w' = Some (take j (full_manifest demo_training)) /\
    ts_status (training_status w') = "idle" /\
    ts_progress (training_status w') = 1.0%float /\
    ts_message (training_status w')
      = "Dataset processed: " ++ pretty j ++ " chunks" /\
    (j < length (audio_files demo_training) -> should_stop w' = true) /\
    (should_stop demo_training = false ->
     (forall k, (fun k => Nat.eqb k 1) k = false) ->
     j = length (audio_files demo_training) /\
     metadata w' = Some (full_manifest demo_training)).
Proof.
  assert (H1 : audio_files demo_training <> []) by discriminate.
  split.
  - exact H1.
  - exact (process_dataset_manifest (fun k => Nat.eqb k 1) demo_training H1).
Defined.

Example process_dataset_cut_short :
  metadata (process_dataset (fun k => Nat.eqb k 1) demo_training)
  = Some [("dataset/a.wav", "Music track from a")].
Proof. vm_compute. reflexivity. Qed.

(** X13 on the concrete controller, a stop having been requested before
    the run. *)
Lemma undisturbed_run_completes_witness :
  (is_training (stop_training demo_dataset_ready) = false /\
   pretrained_error (stop_training demo_dataset_ready) = None /\
   is_Some (metadata (stop_training demo_dataset_ready)) /\
   (forall k : nat, (fun _ : nat => false) k = false)) /\
  let w' := start_training demo_uuid4 demo_strftime 3 0.0001 4
              (fun _ => false) (stop_training demo_dataset_ready) in
  ts_epoch (training_status w') = Z.max 0 3 /\
  ts_total_epochs (training_status w') = 3%Z /\
  ts_status (training_status w') = "completed" /\
  ts_progress (training_status w') = 1.0%float /\
  ts_message (training_status w') = "Training completed successfully" /\
  is_training w' = false /\
  should_stop w' = false /\
  is_Some (model_checkpoints w'
             !! demo_uuid4 (Training.uuid_draws (stop_training demo_dataset_ready))).
Proof.
  assert (H1 : is_Some (metadata (stop_training demo_dataset_ready)))
    by (vm_compute; eexists; reflexivity).
  assert (H2 : forall k : nat, (fun _ : nat => false) k = false)
    by (intros k; reflexivity).
  split.
  - repeat split; try assumption.
  - exact (undisturbed_run_completes demo_uuid4 demo_strftime 3 0.0001 4
             (fun _ => false) (stop_training demo_dataset_ready)
             eq_refl eq_refl H1 H2).
Defined.

(** X14 on the concrete controller without a manifest: the run fails and
    the next request is accepted. *)
Lemma every_run_releases_the_flag_witness :
  is_training demo_training = false /\
  let w' := start_training demo_uuid4 demo_strftime 3 0.0001 4
              (fun _ => false) demo_training in
  is_training w' = false /\
  ts_status (training_status w') = "failed" /\
  ts_message (training_status w')
    = "Dataset not processed. Please process dataset first." /\
  fst (start_training_endpoint demo_uuid4 demo_strftime 3 0.0001 4
         (fun _ => false) w')
  = Ok "started" "Training started".
Proof.
  split.
  - reflexivity.
  - destruct (every_run_releases_the_flag demo_uuid4 demo_strftime 3 0.0001 4
                (fun _ => false) demo_training eq_refl)
      as (Hclear & _ & Hnext).
    split; [exact Hclear|].
    split; [vm_compute; reflexivity|].
    split; [vm_compute; reflexivity|].
    exact (Hnext 3%Z 0.0001%float 4%Z (fun _ => false)).
Defined.

(** X15 on the concrete controller: a dataset run cut short at once, then
    a training. *)
Lemma dataset_then_training_witness :
  (audio_files demo_training <> [] /\
   is_training demo_training = false /\
   pretrained_error demo_training = None) /\
  let w1 := process_dataset (fun _ => true) demo_training in
  let w2 := start_training demo_uuid4 demo_strftime 3 0.0001 4
              (fun _ => false) w1 in
  is_Some (metadata w1) /\
  ts_status (training_status w2) = "completed" /\
  is_training w2 = false /\
  Training.uuid_draws w2 = S (Training.uuid_draws demo_training).
Proof.
  assert (H1 : audio_files demo_training <> []) by discriminate.
  split.
  - split; [exact H1 | split; reflexivity].
  - exact (dataset_then_training demo_uuid4 demo_strftime (fun _ => true)
             (fun _ => false) 3 0.0001 4 demo_training H1 eq_refl eq_refl).
Defined.

(** X16 on a file name with a dot inside. *)
Lemma caption_of_audio_file_witness :
  ("take.2" <> "" /\ "mp3" <> "" /\
   lacks (Ascii.ascii_of_nat 47) "take.2" /\
   lacks (Ascii.ascii_of_nat 47) "mp3" /\
   lacks (Ascii.ascii_of_nat 46) "mp3") /\
  path_name ("dataset/" ++ "take.2" ++ "." ++ "mp3") = "take.2" ++ "." ++ "mp3" /\
  stem ("dataset/" ++ "take.2" ++ "." ++ "mp3") = "take.2" /\
  _generate_caption ("dataset/" ++ "take.2" ++ "." ++ "mp3")
    = "Music track from " ++ "take.2" /\
  manifest_entry ("take.2" ++ "." ++ "mp3")
    = ("dataset/" ++ "take.2" ++ "." ++ "mp3", "Music track from " ++ "take.2").
Proof.
  assert (H1 : "take.2" <> "") by discriminate.
  assert (H2 : "mp3" <> "") by discriminate.
  split.
  - repeat split; try assumption.
  - exact (caption_of_audio_file "take.2" "mp3" H1 H2 eq_refl eq_refl
             eq_refl).
Defined.

Example stem_edge_cases :
  stem "dataset/.wav" = ".wav" /\
  stem "dataset/a." = "a." /\
  stem "dataset/a.tar.gz" = "a.tar" /\
  stem "dataset/noext" = "noext".
Proof. vm_compute. repeat split. Qed.
